(** * Fitbit uploader: a shallow embedding of the metric fetchers, the sheet
    writer, the command-line front end and the HTTP trigger, with the
    properties stated for them.

    Source files embedded here: [fitbit_client.py], [sheets_writer.py],
    [main.py], [server.py], the loader of [config.py], and of
    [fitbit_auth.py] the session set-up that [fetch_all] depends on and the
    local callback of the authorization flow. *)

From Stdlib Require Import ZArith List String Ascii Bool Lia QArith Qround.
From Stdlib Require Import DecimalString.
Import ListNotations.

Set Warnings "-register-all".

Local Open Scope string_scope.
Local Open Scope Z_scope.

(* ===================================================================== *)
(** * The Python run time the program relies on *)
(* ===================================================================== *)

Module Python.

(** Exceptions derived from [Exception] that the embedded code or the
    libraries under it raise.  [SystemExit] is not one of them and is kept
    apart, in [outcome] below: [except Exception] does not catch it. *)
Inductive exn : Type :=
| AttributeError
| TypeError
| KeyError
| IndexError
| ValueError
| OverflowError
| HTTPError (status : Z)
| JSONDecodeError
| RequestException (msg : string)
| APIError (msg : string).

(** A computation that returns or raises. *)
Inductive result (A : Type) : Type :=
| Ok (a : A)
| Raise (e : exn).
Arguments Ok {A} a.
Arguments Raise {A} e.

Definition bind {A B} (m : result A) (k : A -> result B) : result B :=
  match m with
  | Ok a => k a
  | Raise e => Raise e
  end.

Declare Scope py_scope.
Delimit Scope py_scope with py.
Notation "x <- m ;; k" := (bind m (fun x => k))
  (at level 61, m at next level, right associativity) : py_scope.

(** A statement of a command: it completes, dies with an uncaught
    exception, or leaves through [sys.exit(code)] / [raise SystemExit(code)]. *)
Inductive outcome (A : Type) : Type :=
| Done (a : A)
| Failed (e : exn)
| Exited (code : Z).
Arguments Done {A} a.
Arguments Failed {A} e.
Arguments Exited {A} code.

Definition of_result {A} (r : result A) : outcome A :=
  match r with
  | Ok a => Done a
  | Raise e => Failed e
  end.

(** The exit status of the interpreter when [main()] ends with this
    outcome: 0 on return, the code given to [SystemExit], 1 after the
    traceback of an uncaught exception. *)
Definition exit_status {A} (o : outcome A) : Z :=
  match o with
  | Done _ => 0
  | Failed _ => 1
  | Exited c => c
  end.

(** Binary floating point is not modelled bit by bit: the operations of
    [float] that the program uses are the fields of this class, and every
    theorem holds for each instance. *)
Class PyFloat : Type := {
  float : Type;
  (** [round(x, ndigits)] on a float. *)
  float_round : float -> Z -> float;
  (** [bool(x)], that is [x != 0.0]. *)
  float_truthy : float -> bool;
  (** [a / b] on two ints, [b <> 0]; [None] is [OverflowError]. *)
  int_truediv : Z -> Z -> option float;
  (** [x / b] for a float [x] and a small non-zero int [b]. *)
  float_truediv : float -> Z -> float;
  (** [repr(x)], which is also [str(x)]. *)
  float_repr : float -> string
}.

(** [s.isascii()]: a character above 127 stands for a character outside
    ASCII. *)
Definition isascii (s : string) : bool :=
  forallb (fun c => Nat.ltb (nat_of_ascii c) 128) (list_ascii_of_string s).

(** On text that is ASCII only, [int] and [str.capitalize] are written out
    where the program uses them.  On any other text they follow the
    Unicode tables of the interpreter (decimal digits and white space of
    every script, case mappings), which are not modelled: what they give
    there are the fields of this class, and every theorem holds for each
    instance. *)
Class PyUnicode : Type := {
  (** [int(s)] for [s] with a character outside ASCII; [None] is
      [ValueError]. *)
  int_unicode : string -> option Z;
  (** [s.capitalize()] for [s] with a character outside ASCII. *)
  capitalize_unicode : string -> string
}.

Section Values.
Context {F : PyFloat}.

(** Values as [json] decoding produces them; a dict keeps insertion order
    and its keys are strings. *)
Inductive value : Type :=
| VNone
| VBool (b : bool)
| VInt (n : Z)
| VFloat (x : float)
| VStr (s : string)
| VList (l : list value)
| VDict (d : list (string * value)).

Definition dict : Type := list (string * value).

Fixpoint lookup (k : string) (d : dict) : option value :=
  match d with
  | [] => None
  | (k', v) :: rest => if String.eqb k k' then Some v else lookup k rest
  end.

Definition keys (d : dict) : list string := map fst d.

(** [d[k] = v]: replaces in place, or appends a new key. *)
Fixpoint setitem (k : string) (v : value) (d : dict) : dict :=
  match d with
  | [] => [(k, v)]
  | (k', v') :: rest =>
      if String.eqb k k' then (k', v) :: rest else (k', v') :: setitem k v rest
  end.

(** [d.update(other)] *)
Definition update (d other : dict) : dict :=
  fold_left (fun acc kv => setitem (fst kv) (snd kv) acc) other d.

(** [x.get(k, default)]: only dicts have [get]. *)
Definition get (x : value) (k : string) (default : value) : result value :=
  match x with
  | VDict d => Ok (match lookup k d with Some v => v | None => default end)
  | _ => Raise AttributeError
  end.

(** [bool(x)] *)
Definition truthy (x : value) : bool :=
  match x with
  | VNone => false
  | VBool b => b
  | VInt n => negb (n =? 0)
  | VFloat f => float_truthy f
  | VStr s => negb (String.eqb s "")
  | VList l => match l with [] => false | _ => true end
  | VDict d => match d with [] => false | _ => true end
  end.

Definition chars (s : string) : list value :=
  map (fun c => VStr (String c EmptyString)) (list_ascii_of_string s).

(** [for x in v]: the elements of a list, the keys of a dict, the
    characters of a string. *)
Definition iter (v : value) : result (list value) :=
  match v with
  | VList l => Ok l
  | VDict d => Ok (map VStr (keys d))
  | VStr s => Ok (chars s)
  | _ => Raise TypeError
  end.

(** [v[0]] *)
Definition index0 (v : value) : result value :=
  match v with
  | VList (x :: _) => Ok x
  | VList [] => Raise IndexError
  | VStr (String c _) => Ok (VStr (String c EmptyString))
  | VStr EmptyString => Raise IndexError
  | VDict _ => Raise KeyError
  | _ => Raise TypeError
  end.

Fixpoint prefix (n : nat) (s : string) : string :=
  match n, s with
  | S n', String c s' => String c (prefix n' s')
  | _, _ => EmptyString
  end.

(** [v[:10]] *)
Definition slice10 (v : value) : result value :=
  match v with
  | VStr s => Ok (VStr (prefix 10 s))
  | VList l => Ok (VList (firstn 10 l))
  | _ => Raise TypeError
  end.

(** [v == s] for a string [s] *)
Definition eq_str (v : value) (s : string) : bool :=
  match v with
  | VStr t => String.eqb t s
  | _ => false
  end.

(** [isinstance(v, list)] and [isinstance(v, dict)] *)
Definition is_list (v : value) : bool :=
  match v with VList _ => true | _ => false end.
Definition is_dict (v : value) : bool :=
  match v with VDict _ => true | _ => false end.

(** [round(v, ndigits)] with [0 <= ndigits]: an int (or bool) comes back
    as the int it is, a float is rounded. *)
Definition round (v : value) (ndigits : Z) : result value :=
  match v with
  | VInt n => Ok (VInt n)
  | VBool b => Ok (VInt (if b then 1 else 0))
  | VFloat x => Ok (VFloat (float_round x ndigits))
  | _ => Raise TypeError
  end.

Definition int_div (a b : Z) : result value :=
  match int_truediv a b with
  | Some q => Ok (VFloat q)
  | None => Raise OverflowError
  end.

(** [v / b] for a non-zero int constant [b] *)
Definition truediv (v : value) (b : Z) : result value :=
  match v with
  | VInt n => int_div n b
  | VBool t => int_div (if t then 1 else 0) b
  | VFloat x => Ok (VFloat (float_truediv x b))
  | _ => Raise TypeError
  end.

Definition str_of_Z (n : Z) : string := NilZero.string_of_int (Z.to_int n).

Fixpoint join (sep : string) (l : list string) : string :=
  match l with
  | [] => ""
  | [x] => x
  | x :: rest => x ++ sep ++ join sep rest
  end.

(** [repr] of a string, for the characters this model gives a meaning
    to: single quotes unless the text holds a single quote and no double
    quote, backslash escapes for the quote, the backslash and the control
    characters. *)
Definition hex_digit (n : nat) : ascii :=
  nth n (list_ascii_of_string "0123456789abcdef") "0"%char.

Definition escape_char (q : ascii) (c : ascii) : string :=
  let n := nat_of_ascii c in
  if Ascii.eqb c q then String "\" (String q EmptyString)
  else if Ascii.eqb c "\" then "\\"
  else if Nat.eqb n 10 then "\n"
  else if Nat.eqb n 13 then "\r"
  else if Nat.eqb n 9 then "\t"
  else if orb (Nat.ltb n 32) (Nat.eqb n 127)
       then String "\" (String "x" (String (hex_digit (Nat.div n 16))
                                      (String (hex_digit (Nat.modulo n 16)) EmptyString)))
  else String c EmptyString.

Definition has_char (c : ascii) (s : string) : bool :=
  existsb (Ascii.eqb c) (list_ascii_of_string s).

Definition dquote : ascii := ascii_of_nat 34.
Definition squote : ascii := ascii_of_nat 39.

Definition repr_str (s : string) : string :=
  let q := if andb (has_char squote s) (negb (has_char dquote s))
           then dquote else squote in
  String q (String.concat "" (map (escape_char q) (list_ascii_of_string s))
            ++ String q EmptyString).

(** [repr(v)] *)
Fixpoint repr (v : value) : string :=
  match v with
  | VNone => "None"
  | VBool b => if b then "True" else "False"
  | VInt n => str_of_Z n
  | VFloat x => float_repr x
  | VStr s => repr_str s
  | VList l => "[" ++ join ", " (map repr l) ++ "]"
  | VDict d =>
      "{" ++ join ", " (map (fun kv => repr_str (fst kv) ++ ": " ++ repr (snd kv)) d) ++ "}"
  end.

(** [str(v)], which is what an f-string field [{v}] inserts. *)
Definition str (v : value) : string :=
  match v with
  | VStr s => s
  | _ => repr v
  end.

End Values.

(** ** Dates *)

Record date : Type := mkdate { year : nat; month : nat; day : nat }.

Definition str_of_nat (n : nat) : string := NilEmpty.string_of_uint (Nat.to_uint n).

Fixpoint zeros (n : nat) : string :=
  match n with
  | O => EmptyString
  | S n' => String "0" (zeros n')
  end.

(** [%0<w>d] *)
Definition pad (w : nat) (n : nat) : string :=
  let s := str_of_nat n in zeros (w - String.length s) ++ s.

(** [str(d)], the ISO form [YYYY-MM-DD]. *)
Definition isoformat (d : date) : string :=
  pad 4 (year d) ++ "-" ++ pad 2 (month d) ++ "-" ++ pad 2 (day d).

End Python.

(* ===================================================================== *)
(** * fitbit_client.py *)
(* ===================================================================== *)

Module FitbitClient.
Import Python.
Local Open Scope py_scope.

Section Client.
Context {F : PyFloat}.

(** What [session.get(url)] hands back: a status line and a body, which
    [resp.json()] decodes ([None]: the body is not JSON). *)
Record response : Type := mkresponse {
  status_code : Z;
  json_body : option value
}.

(** The request-issuing handle: [session.get(url)] answers or raises. *)
Definition session : Type := string -> result response.

Definition BASE : string := "https://api.fitbit.com".

Definition raise_for_status (resp : response) : result unit :=
  if andb (400 <=? status_code resp) (status_code resp <? 600)
  then Raise (HTTPError (status_code resp))
  else Ok tt.

Definition json (resp : response) : result value :=
  match json_body resp with
  | Some v => Ok v
  | None => Raise JSONDecodeError
  end.

Definition _get (s : session) (path : string) : result value :=
  resp <- s (BASE ++ path) ;;
  _ <- raise_for_status resp ;;
  json resp.

(** ** Individual metric fetchers *)

(** The [for d in distances] loop of [_total_distance]. *)
Fixpoint total_distance_loop (distances : list value) : result value :=
  match distances with
  | [] => Ok (VInt 0)
  | d :: rest =>
      a <- get d "activity" VNone ;;
      if eq_str a "total"
      then (v <- get d "distance" (VInt 0) ;; round v 2)
      else total_distance_loop rest
  end.

Definition _total_distance (summary : value) : result value :=
  distances <- get summary "distances" (VList []) ;;
  items <- iter distances ;;
  total_distance_loop items.

Definition activities_path (d : date) : string :=
  "/1/user/-/activities/date/" ++ isoformat d ++ ".json".

Definition get_activity_summary (s : session) (d : date) : result dict :=
  data <- _get s (activities_path d) ;;
  s <- get data "summary" (VDict []) ;;
  steps <- get s "steps" (VInt 0) ;;
  distance_km <- _total_distance s ;;
  floors <- get s "floors" (VInt 0) ;;
  calories_total <- get s "caloriesOut" (VInt 0) ;;
  calories_activity <- get s "activityCalories" (VInt 0) ;;
  Ok [("steps", steps);
      ("distance_km", distance_km);
      ("floors", floors);
      ("calories_total", calories_total);
      ("calories_activity", calories_activity)].

Definition azm_path (d : date) : string :=
  "/1/user/-/activities/active-zone-minutes/date/" ++ isoformat d ++ "/1d.json".

Definition get_azm (s : session) (d : date) : result dict :=
  data <- _get s (azm_path d) ;;
  minutes <- get data "activities-active-zone-minutes" (VList []) ;;
  if negb (truthy minutes)
  then Ok [("azm_fat_burn", VInt 0); ("azm_cardio", VInt 0);
           ("azm_peak", VInt 0); ("azm_total", VInt 0)]
  else
    m0 <- index0 minutes ;;
    val <- get m0 "value" (VDict []) ;;
    fat_burn <- get val "fatBurnActiveZoneMinutes" (VInt 0) ;;
    cardio <- get val "cardioActiveZoneMinutes" (VInt 0) ;;
    peak <- get val "peakActiveZoneMinutes" (VInt 0) ;;
    total <- get val "activeZoneMinutes" (VInt 0) ;;
    Ok [("azm_fat_burn", fat_burn); ("azm_cardio", cardio);
        ("azm_peak", peak); ("azm_total", total)].

(** The [for s in sleeps] loop of [get_sleep]: the first entry whose
    [isMainSleep] is truthy, [None] when the loop runs out. *)
Fixpoint main_sleep_loop (sleeps : list value) : result value :=
  match sleeps with
  | [] => Ok VNone
  | s :: rest =>
      flag <- get s "isMainSleep" VNone ;;
      if truthy flag then Ok s else main_sleep_loop rest
  end.

Definition sleep_path (d : date) : string :=
  "/1.2/user/-/sleep/date/" ++ isoformat d ++ ".json".

Definition no_sleep : dict :=
  [("sleep_start", VStr ""); ("sleep_end", VStr "");
   ("sleep_duration_hrs", VInt 0); ("sleep_efficiency", VInt 0);
   ("sleep_deep_min", VInt 0); ("sleep_light_min", VInt 0);
   ("sleep_rem_min", VInt 0); ("sleep_wake_min", VInt 0)].

(** [summary.get(stage, {}).get("minutes", 0)] *)
Definition stage_minutes (summary : value) (stage : string) : result value :=
  st <- get summary stage (VDict []) ;;
  get st "minutes" (VInt 0).

(** The part of [get_sleep] after the main entry is chosen. *)
Definition sleep_row (main : value) : result dict :=
  levels <- get main "levels" (VDict []) ;;
  summary <- get levels "summary" (VDict []) ;;
  duration_ms <- get main "duration" (VInt 0) ;;
  sleep_start <- get main "startTime" (VStr "") ;;
  sleep_end <- get main "endTime" (VStr "") ;;
  hours <- truediv duration_ms 3600000 ;;
  sleep_duration_hrs <- round hours 2 ;;
  sleep_efficiency <- get main "efficiency" (VInt 0) ;;
  deep <- stage_minutes summary "deep" ;;
  light <- stage_minutes summary "light" ;;
  rem <- stage_minutes summary "rem" ;;
  wake <- stage_minutes summary "wake" ;;
  Ok [("sleep_start", sleep_start); ("sleep_end", sleep_end);
      ("sleep_duration_hrs", sleep_duration_hrs);
      ("sleep_efficiency", sleep_efficiency);
      ("sleep_deep_min", deep); ("sleep_light_min", light);
      ("sleep_rem_min", rem); ("sleep_wake_min", wake)].

(** The choice of the main entry, lines 63 to 69. *)
Definition select_main (sleeps : value) : result value :=
  items <- iter sleeps ;;
  main <- main_sleep_loop items ;;
  if andb (negb (truthy main)) (truthy sleeps) then index0 sleeps else Ok main.

Definition sleep_of (data : value) : result dict :=
  sleeps <- get data "sleep" (VList []) ;;
  main <- select_main sleeps ;;
  if negb (truthy main) then Ok no_sleep else sleep_row main.

Definition get_sleep (s : session) (d : date) : result dict :=
  data <- _get s (sleep_path d) ;;
  sleep_of data.

Definition heart_path (d : date) : string :=
  "/1/user/-/activities/heart/date/" ++ isoformat d ++ "/1d.json".

Definition get_heart_rate (s : session) (d : date) : result dict :=
  data <- _get s (heart_path d) ;;
  entries <- get data "activities-heart" (VList []) ;;
  if negb (truthy entries) then Ok [("rhr", VStr "")]
  else
    e0 <- index0 entries ;;
    val <- get e0 "value" (VDict []) ;;
    rhr <- get val "restingHeartRate" (VStr "") ;;
    Ok [("rhr", rhr)].

(** [round(val.get(k, 0), n) if val.get(k) else ""] *)
Definition rounded_or_blank (val : value) (k : string) (n : Z) : result value :=
  c <- get val k VNone ;;
  if truthy c then (v <- get val k (VInt 0) ;; round v n) else Ok (VStr "").

Definition hrv_path (d : date) : string :=
  "/1/user/-/hrv/date/" ++ isoformat d ++ ".json".

Definition get_hrv (s : session) (d : date) : result dict :=
  data <- _get s (hrv_path d) ;;
  entries <- get data "hrv" (VList []) ;;
  if negb (truthy entries) then Ok [("hrv_rmssd", VStr "")]
  else
    e0 <- index0 entries ;;
    val <- get e0 "value" (VDict []) ;;
    r <- rounded_or_blank val "dailyRmssd" 2 ;;
    Ok [("hrv_rmssd", r)].

Definition spo2_path (d : date) : string :=
  "/1/user/-/spo2/date/" ++ isoformat d ++ ".json".

Definition get_spo2 (s : session) (d : date) : result dict :=
  data <- _get s (spo2_path d) ;;
  val <- get data "value" data ;;
  val <- (if is_list val
          then (if truthy val then index0 val else Ok (VDict []))
          else Ok val) ;;
  avg <- get val "avg" (VStr "") ;;
  mn <- get val "min" (VStr "") ;;
  mx <- get val "max" (VStr "") ;;
  Ok [("spo2_avg", avg); ("spo2_min", mn); ("spo2_max", mx)].

Definition br_path (d : date) : string :=
  "/1/user/-/br/date/" ++ isoformat d ++ ".json".

Definition get_breathing_rate (s : session) (d : date) : result dict :=
  data <- _get s (br_path d) ;;
  entries <- get data "br" (VList []) ;;
  if negb (truthy entries) then Ok [("breathing_rate", VStr "")]
  else
    e0 <- index0 entries ;;
    val <- get e0 "value" (VDict []) ;;
    r <- rounded_or_blank val "breathingRate" 1 ;;
    Ok [("breathing_rate", r)].

Definition skin_path (d : date) : string :=
  "/1/user/-/temp/skin/date/" ++ isoformat d ++ ".json".

Definition get_skin_temp (s : session) (d : date) : result dict :=
  data <- _get s (skin_path d) ;;
  entries <- get data "tempSkin" (VList []) ;;
  if negb (truthy entries) then Ok [("skin_temp_variation", VStr "")]
  else
    e0 <- index0 entries ;;
    val <- get e0 "value" (VDict []) ;;
    r <- get val "nightlyRelative" (VStr "") ;;
    Ok [("skin_temp_variation", r)].

Definition cardio_path (d : date) : string :=
  "/1/user/-/cardioscore/date/" ++ isoformat d ++ ".json".

(** Lines 155 to 160: the rendering of the [vo2Max] value. *)
Definition render_vo2 (val : value) : result value :=
  vo2 <- get val "vo2Max" VNone ;;
  if is_dict vo2
  then
    low <- get vo2 "low" (VStr "") ;;
    high <- get vo2 "high" (VStr "") ;;
    Ok (VStr (str low ++ "-" ++ str high))
  else Ok (if truthy vo2 then vo2 else VStr "").

Definition vo2_of (data : value) : result dict :=
  entries <- get data "cardioScore" (VList []) ;;
  if negb (truthy entries) then Ok [("vo2_max", VStr "")]
  else
    e0 <- index0 entries ;;
    val <- get e0 "value" (VDict []) ;;
    r <- render_vo2 val ;;
    Ok [("vo2_max", r)].

Definition get_vo2_max (s : session) (d : date) : result dict :=
  data <- _get s (cardio_path d) ;;
  vo2_of data.

Definition exercises_path (d : date) : string :=
  "/1/user/-/activities/list.json?afterDate=" ++ isoformat d
  ++ "&sort=asc&offset=0&limit=20".

(** [a.get("startDate", a.get("originalStartTime", ""))[:10]] *)
Definition log_date (a : value) : result value :=
  original <- get a "originalStartTime" (VStr "") ;;
  start <- get a "startDate" original ;;
  slice10 start.

(** The text appended to [parts] for one activity. *)
Definition exercise_part (a : value) : result string :=
  name <- get a "activityName" (VStr "Unknown") ;;
  active <- get a "activeDuration" (VInt 0) ;;
  minutes <- truediv active 60000 ;;
  duration_min <- round minutes 1 ;;
  cals <- get a "calories" (VInt 0) ;;
  Ok (str name ++ " (" ++ str duration_min ++ "min, " ++ str cals ++ "cal)").

(** The [for a in activities] loop; the parts come out in list order. *)
Fixpoint exercise_parts (d : date) (activities : list value) : result (list string) :=
  match activities with
  | [] => Ok []
  | a :: rest =>
      ld <- log_date a ;;
      if negb (eq_str ld (isoformat d))
      then exercise_parts d rest
      else
        p <- exercise_part a ;;
        ps <- exercise_parts d rest ;;
        Ok (p :: ps)
  end.

Definition exercises_of (d : date) (data : value) : result dict :=
  activities <- get data "activities" (VList []) ;;
  if negb (truthy activities) then Ok [("exercises", VStr "None")]
  else
    items <- iter activities ;;
    parts <- exercise_parts d items ;;
    Ok [("exercises",
         VStr (match parts with [] => "None" | _ => join "; " parts end))].

Definition get_exercises (s : session) (d : date) : result dict :=
  data <- _get s (exercises_path d) ;;
  exercises_of d data.

(** ** fitbit_auth.get_session

    What [get_session] reads before it builds the handle: whether the
    required configuration values are set ([config._ensure_loaded] leaves
    through [sys.exit(1)] otherwise), and the token file: [_load_token()]
    raises when the file cannot be read or decoded, and tells whether it
    holds a token. *)
Record environment : Type := mkenvironment {
  config_set : bool;
  token_file : result bool;
  http : session;
  today : date
}.

Definition get_session (env : environment) : outcome session :=
  if negb (config_set env) then Exited 1
  else
    match token_file env with
    | Raise e => Failed e
    | Ok false => Exited 1
    | Ok true => Done (http env)
    end.

(** ** Aggregate fetcher *)

Definition fetcher : Type := session -> date -> result dict.

(** The [fetchers] list of [fetch_all], each function with its
    [__name__]. *)
Definition fetchers : list (string * fetcher) :=
  [("get_activity_summary", get_activity_summary);
   ("get_azm", get_azm);
   ("get_sleep", get_sleep);
   ("get_heart_rate", get_heart_rate);
   ("get_hrv", get_hrv);
   ("get_spo2", get_spo2);
   ("get_breathing_rate", get_breathing_rate);
   ("get_skin_temp", get_skin_temp);
   ("get_vo2_max", get_vo2_max);
   ("get_exercises", get_exercises)].

(** One turn of the loop: [row.update(fn(session, d))], or the warning
    that names [fn] when the call raises. *)
Definition fetch_step (s : session) (d : date)
  (acc : dict * list string) (fn : string * fetcher) : dict * list string :=
  match snd fn s d with
  | Ok r => (update (fst acc) r, snd acc)
  | Raise _ => (fst acc, (snd acc ++ [fst fn])%list)
  end.

Definition run_fetchers (fns : list (string * fetcher)) (s : session) (d : date)
  : dict * list string :=
  fold_left (fetch_step s d) fns ([], []).

(** [fetch_all(d)]; the second component lists, in order, the fetchers a
    warning was printed for. *)
Definition fetch_all_log (env : environment) (d : option date)
  : outcome (dict * list string) :=
  let d := match d with Some d => d | None => today env end in
  match get_session env with
  | Done s => Done (run_fetchers fetchers s d)
  | Failed e => Failed e
  | Exited c => Exited c
  end.

Definition fetch_all (env : environment) (d : option date) : outcome dict :=
  match fetch_all_log env d with
  | Done r => Done (fst r)
  | Failed e => Failed e
  | Exited c => Exited c
  end.

End Client.
End FitbitClient.

(* ===================================================================== *)
(** * sheets_writer.py *)
(* ===================================================================== *)

Module SheetsWriter.
Import Python.

Section Writer.
Context {F : PyFloat} {U : PyUnicode}.

(** Column order of the Fitbit tab. *)
Definition FITBIT_COLUMNS : list string :=
  ["steps"; "distance_km"; "floors"; "calories_total"; "calories_activity";
   "azm_fat_burn"; "azm_cardio"; "azm_peak"; "azm_total";
   "sleep_start"; "sleep_end"; "sleep_duration_hrs"; "sleep_efficiency";
   "sleep_deep_min"; "sleep_light_min"; "sleep_rem_min"; "sleep_wake_min";
   "rhr"; "hrv_rmssd"; "spo2_avg"; "spo2_min"; "spo2_max";
   "breathing_rate"; "skin_temp_variation"; "vo2_max"; "exercises"].

Definition row : Type := list value.

(** A call of [ws.append_row]: the tab of the worksheet and the row. *)
Definition append_call : Type := (string * row)%type.

(** The state the writer acts on: how often the clock was read, every
    [append_row] call made so far, and the rows the spreadsheet took. *)
Record world : Type := mkworld {
  clock_reads : nat;
  attempted : list append_call;
  committed : list append_call
}.

(** The services behind the writer.  [clock n] is what
    [datetime.now().strftime(...)] gives at the [n]-th reading;
    [open_tab t] is [_get_sheet()] followed by [sheet.worksheet(t)];
    [api_fault w t r] is the error, if any, with which the spreadsheet API
    answers the call [append_row] of [r] on tab [t] in state [w]. *)
Record services : Type := mkservices {
  clock : nat -> string;
  open_tab : string -> outcome unit;
  api_fault : world -> string -> row -> option exn
}.

Variable svc : services.

Definition _timestamp (w : world) : string * world :=
  (clock svc (clock_reads w),
   mkworld (S (clock_reads w)) (attempted w) (committed w)).

(** [ws.append_row(row, ...)] on the worksheet of tab [tab]. *)
Definition append_row (tab : string) (r : row) (w : world) : outcome unit * world :=
  let tried := (attempted w ++ [(tab, r)])%list in
  match api_fault svc w tab r with
  | Some e => (Failed e, mkworld (clock_reads w) tried (committed w))
  | None => (Done tt, mkworld (clock_reads w) tried (committed w ++ [(tab, r)])%list)
  end.

(** [for row in rows: ws.append_row(row, ...)] *)
Fixpoint append_rows (tab : string) (rows : list row) (w : world)
  : outcome unit * world :=
  match rows with
  | [] => (Done tt, w)
  | r :: rest =>
      match append_row tab r w with
      | (Done _, w') => append_rows tab rest w'
      | (Failed e, w') => (Failed e, w')
      | (Exited c, w') => (Exited c, w')
      end
  end.

(** [d.get(k, "")] on a dict *)
Definition field (d : dict) (k : string) : value :=
  match lookup k d with Some v => v | None => VStr "" end.

Definition with_tab (tab : string) (body : world -> outcome unit * world)
  (w : world) : outcome unit * world :=
  match open_tab svc tab with
  | Done _ => body w
  | Failed e => (Failed e, w)
  | Exited c => (Exited c, w)
  end.

Definition append_fitbit (metrics : dict) (w : world) : outcome unit * world :=
  with_tab "Fitbit" (fun w =>
    let (ts, w1) := _timestamp w in
    append_row "Fitbit" (VStr ts :: map (field metrics) FITBIT_COLUMNS) w1) w.

(** The first loop of [append_bp]: [enumerate(readings, 1)], here from [i]. *)
Fixpoint bp_rows (ts : string) (i : Z) (readings : list dict) : list row :=
  match readings with
  | [] => []
  | r :: rest =>
      [VStr ts; VInt i; field r "systolic"; field r "diastolic";
       field r "pulse"; field r "notes"] :: bp_rows ts (i + 1) rest
  end.

Definition append_bp (readings : list dict) (w : world) : outcome unit * world :=
  with_tab "Blood Pressure" (fun w =>
    let (ts, w1) := _timestamp w in
    append_rows "Blood Pressure" (bp_rows ts 1 readings) w1) w.

Definition is_lower (c : ascii) : bool :=
  andb (Nat.leb 97 (nat_of_ascii c)) (Nat.leb (nat_of_ascii c) 122).
Definition is_upper (c : ascii) : bool :=
  andb (Nat.leb 65 (nat_of_ascii c)) (Nat.leb (nat_of_ascii c) 90).
Definition upper (c : ascii) : ascii :=
  if is_lower c then ascii_of_nat (nat_of_ascii c - 32) else c.
Definition lower (c : ascii) : ascii :=
  if is_upper c then ascii_of_nat (nat_of_ascii c + 32) else c.

Fixpoint map_string (f : ascii -> ascii) (s : string) : string :=
  match s with
  | EmptyString => EmptyString
  | String c s' => String (f c) (map_string f s')
  end.

(** [s.capitalize()] on ASCII text: the first character in upper case,
    the others in lower case. *)
Definition capitalize_ascii (s : string) : string :=
  match s with
  | EmptyString => EmptyString
  | String c s' => String (upper c) (map_string lower s')
  end.

(** [s.capitalize()] *)
Definition capitalize (s : string) : string :=
  if isascii s then capitalize_ascii s else capitalize_unicode s.

Definition diet_rows (ts meal : string) (items : list dict) : list row :=
  map (fun item =>
         [VStr ts; VStr (capitalize meal); field item "food_item";
          field item "weight_grams"; field item "notes"]) items.

Definition append_diet (meal : string) (items : list dict) (w : world)
  : outcome unit * world :=
  with_tab "Diet" (fun w =>
    let (ts, w1) := _timestamp w in
    append_rows "Diet" (diet_rows ts meal items) w1) w.

End Writer.
End SheetsWriter.

(* ===================================================================== *)
(** * main.py *)
(* ===================================================================== *)

Module Main.
Import Python.

(** [s.split(c)] for a one-character separator. *)
Fixpoint split (sep : ascii) (s : string) : list string :=
  match s with
  | EmptyString => [EmptyString]
  | String c s' =>
      if Ascii.eqb c sep then EmptyString :: split sep s'
      else match split sep s' with
           | [] => [String c EmptyString]
           | p :: ps => String c p :: ps
           end
  end.

(** White space that [int] strips from ASCII text: tab, line feed,
    vertical tab, form feed, carriage return and space. *)
Definition is_space (c : ascii) : bool :=
  let n := nat_of_ascii c in
  orb (andb (Nat.leb 9 n) (Nat.leb n 13)) (Nat.eqb n 32).

Fixpoint lstrip (l : list ascii) : list ascii :=
  match l with
  | c :: rest => if is_space c then lstrip rest else l
  | [] => []
  end.

Definition strip (l : list ascii) : list ascii := rev (lstrip (rev (lstrip l))).

Definition digit_val (c : ascii) : option Z :=
  let n := nat_of_ascii c in
  if andb (Nat.leb 48 n) (Nat.leb n 57) then Some (Z.of_nat (n - 48)) else None.

(** The digits after the first one; a single underscore may sit between
    two digits. *)
Fixpoint more_digits (acc : Z) (l : list ascii) : option Z :=
  match l with
  | [] => Some acc
  | c :: rest =>
      if Ascii.eqb c "_"
      then match rest with
           | d :: rest' =>
               match digit_val d with
               | Some v => more_digits (acc * 10 + v) rest'
               | None => None
               end
           | [] => None
           end
      else match digit_val c with
           | Some v => more_digits (acc * 10 + v) rest
           | None => None
           end
  end.

Definition unsigned (l : list ascii) : option Z :=
  match l with
  | c :: rest =>
      match digit_val c with
      | Some v => more_digits v rest
      | None => None
      end
  | [] => None
  end.

(** The interpreter refuses a text of more than this many digits. *)
Definition max_str_digits : nat := 4300.

Definition count_digits (l : list ascii) : nat :=
  List.length (filter (fun c => match digit_val c with Some _ => true | None => false end) l).

(** [int(s)] in base 10 on ASCII text: white space around, a sign,
    digits. *)
Definition int_ascii (s : string) : result Z :=
  let body := strip (list_ascii_of_string s) in
  let parsed :=
    match body with
    | c :: rest =>
        if Ascii.eqb c "-" then option_map Z.opp (unsigned rest)
        else if Ascii.eqb c "+" then unsigned rest
        else unsigned body
    | [] => None
    end in
  match parsed with
  | Some n => if Nat.ltb max_str_digits (count_digits body) then Raise ValueError else Ok n
  | None => Raise ValueError
  end.

(** [int(s)] on a [str]; it raises nothing but [ValueError]. *)
Definition int {U : PyUnicode} (s : string) : result Z :=
  if isascii s then int_ascii s
  else match int_unicode s with
       | Some n => Ok n
       | None => Raise ValueError
       end.

Section Commands.
Context {F : PyFloat} {U : PyUnicode}.
Variable svc : SheetsWriter.services.

(** The body of the [for raw in args.readings] loop. *)
Definition parse_reading (raw : string) : outcome dict :=
  let parts := split "/" raw in
  if Nat.ltb (List.length parts) 2 then Exited 1
  else
    of_result
      (bind (int (nth 0 parts "")) (fun systolic =>
       bind (int (nth 1 parts "")) (fun diastolic =>
       bind (if Nat.ltb 2 (List.length parts)
             then bind (int (nth 2 parts "")) (fun p => Ok (VInt p))
             else Ok (VStr "")) (fun pulse =>
       Ok [("systolic", VInt systolic);
           ("diastolic", VInt diastolic);
           ("pulse", pulse);
           ("notes", VStr "")])))).

Fixpoint parse_readings (args : list string) : outcome (list dict) :=
  match args with
  | [] => Done []
  | raw :: rest =>
      match parse_reading raw with
      | Done r =>
          match parse_readings rest with
          | Done rs => Done (r :: rs)
          | Failed e => Failed e
          | Exited c => Exited c
          end
      | Failed e => Failed e
      | Exited c => Exited c
      end
  end.

Definition cmd_bp (readings : list string) (w : SheetsWriter.world)
  : outcome unit * SheetsWriter.world :=
  match parse_readings readings with
  | Done rs => SheetsWriter.append_bp svc rs w
  | Failed e => (Failed e, w)
  | Exited c => (Exited c, w)
  end.

(** [cmd_fitbit]: [args.date] is the parsed [--date], [None] without the
    option. *)
Definition cmd_fitbit (env : FitbitClient.environment) (date_arg : option date)
  (w : SheetsWriter.world) : outcome unit * SheetsWriter.world :=
  let target :=
    match date_arg with
    | Some d => d
    | None => FitbitClient.today env
    end in
  match FitbitClient.fetch_all env (Some target) with
  | Done metrics => SheetsWriter.append_fitbit svc metrics w
  | Failed e => (Failed e, w)
  | Exited c => (Exited c, w)
  end.




End Commands.
End Main.

(* ===================================================================== *)
(** * server.py *)
(* ===================================================================== *)

Module Server.
Import Python.

(** The request as [do_GET] reads it: [urlparse(self.path).path], and
    [parse_qs] of the query, which maps a name to the non-empty list of
    its values (head and tail here). *)
Record request : Type := mkrequest {
  req_path : string;
  params : list (string * (string * list string))
}.

Fixpoint find_param (k : string) (ps : list (string * (string * list string)))
  : option (string * list string) :=
  match ps with
  | [] => None
  | (k', vs) :: rest => if String.eqb k k' then Some vs else find_param k rest
  end.

(** [params.get(k, [None])[0]] *)
Definition first_value (k : string) (r : request) : option string :=
  match find_param k (params r) with
  | Some (v, _) => Some v
  | None => None
  end.

(** A character above 127 stands for a character outside ASCII. *)
Definition is_ascii (s : string) : bool :=
  forallb (fun c => Nat.ltb (nat_of_ascii c) 128) (list_ascii_of_string s).

(** [hmac.compare_digest(a, b)] on two [str]: it compares text that is
    ASCII only and raises [TypeError] on any other. *)
Definition compare_digest (a b : string) : result bool :=
  if andb (is_ascii a) (is_ascii b) then Ok (String.eqb a b) else Raise TypeError.

(** What the handler has done so far: the responses sent, and how often
    each collaborator was called. *)
Record trace : Type := mktrace {
  responses : list (Z * string);
  fetch_calls : nat;
  write_calls : nat
}.

Definition newline : string := String (ascii_of_nat 10) EmptyString.

Section Handler.
Context {F : PyFloat}.

(** The collaborators and the configuration of the handler:
    [fitbit_client.fetch_all], [sheets_writer.append_fitbit],
    [config.API_KEY], [date.fromisoformat], [date.today()] and
    [traceback.format_exc()]. *)
Variable fetch_all : date -> outcome dict.
Variable append_fitbit : dict -> outcome unit.
Variable API_KEY : string.
Variable fromisoformat : string -> result date.
Variable today : date.
Variable format_exc : exn -> string.

Definition _respond (code : Z) (body : string) (t : trace) : trace :=
  mktrace (responses t ++ [(code, body)])%list (fetch_calls t) (write_calls t).

Definition call_fetch_all (d : date) (t : trace) : outcome dict * trace :=
  (fetch_all d, mktrace (responses t) (S (fetch_calls t)) (write_calls t)).

Definition call_append_fitbit (m : dict) (t : trace) : outcome unit * trace :=
  (append_fitbit m, mktrace (responses t) (fetch_calls t) (S (write_calls t))).

(** Lines 40 to 42. *)
Definition pipeline (target : date) (t : trace) : outcome dict * trace :=
  match call_fetch_all target t with
  | (Done metrics, t1) =>
      match call_append_fitbit metrics t1 with
      | (Done _, t2) => (Done metrics, t2)
      | (Failed e, t2) => (Failed e, t2)
      | (Exited c, t2) => (Exited c, t2)
      end
  | (Failed e, t1) => (Failed e, t1)
  | (Exited c, t1) => (Exited c, t1)
  end.

Definition summary (metrics : dict) : string :=
  join newline (map (fun kv => "  " ++ fst kv ++ ": " ++ str (snd kv)) metrics).

(** Lines 39 to 48, once the target date is known. *)
Definition run_pipeline (target : date) (t : trace) : outcome unit * trace :=
  match pipeline target t with
  | (Done metrics, t1) =>
      (Done tt,
       _respond 200 ("OK — Fitbit data for " ++ isoformat target
                     ++ " written to sheet." ++ newline ++ newline
                     ++ summary metrics) t1)
  | (Failed e, t1) => (Done tt, _respond 500 ("Error:" ++ newline ++ format_exc e) t1)
  | (Exited c, t1) => (Exited c, t1)
  end.

(** [do_GET]: [Done] when the handler returns, [Failed] when an exception
    leaves it (the server then closes the connection and nothing more is
    sent), [Exited] when [SystemExit] does. *)
Definition do_GET (r : request) (t : trace) : outcome unit * trace :=
  if negb (String.eqb (req_path r) "/fetch")
  then (Done tt, _respond 404 "Not found. Use /fetch?key=YOUR_API_KEY" t)
  else
    let key := first_value "key" r in
    let forbidden :=
      match key with
      | None => Ok true
      | Some k =>
          if String.eqb k "" then Ok true
          else bind (compare_digest k API_KEY) (fun same => Ok (negb same))
      end in
    match forbidden with
    | Raise e => (Failed e, t)
    | Ok true => (Done tt, _respond 403 "Forbidden: invalid or missing API key." t)
    | Ok false =>
        let raw_date := first_value "date" r in
        let target :=
          match raw_date with
          | None => Ok today
          | Some rd => if String.eqb rd "" then Ok today else fromisoformat rd
          end in
        match target with
        | Raise ValueError =>
            (Done tt,
             _respond 400 ("Bad date format: "
                           ++ match raw_date with Some rd => rd | None => "None" end
                           ++ ". Use YYYY-MM-DD.") t)
        | Raise e => (Failed e, t)
        | Ok d => run_pipeline d t
        end
    end.

End Handler.
End Server.

(* ===================================================================== *)
(** * config.py *)
(* ===================================================================== *)

Module Config.
Import Python.

(** [os.environ], after [load_dotenv] has added the entries of [.env]. *)
Definition environ : Type := list (string * string).

(** [os.getenv(name)] *)
Fixpoint getenv (name : string) (env : environ) : option string :=
  match env with
  | [] => None
  | (k, v) :: rest => if String.eqb name k then Some v else getenv name rest
  end.

(** The module-level names of [config.py] that [_ensure_loaded] sets. *)
Record settings : Type := mksettings {
  _loaded : bool;
  FITBIT_CLIENT_ID : string;
  FITBIT_CLIENT_SECRET : string;
  GOOGLE_SHEET_ID : string;
  GOOGLE_SERVICE_ACCOUNT_FILE : string;
  FITBIT_TOKEN_FILE : string;
  API_KEY : string;
  SERVER_PORT : Z
}.

Definition set_FITBIT_CLIENT_ID (v : string) (c : settings) : settings :=
  mksettings (_loaded c) v (FITBIT_CLIENT_SECRET c) (GOOGLE_SHEET_ID c)
    (GOOGLE_SERVICE_ACCOUNT_FILE c) (FITBIT_TOKEN_FILE c) (API_KEY c) (SERVER_PORT c).
Definition set_FITBIT_CLIENT_SECRET (v : string) (c : settings) : settings :=
  mksettings (_loaded c) (FITBIT_CLIENT_ID c) v (GOOGLE_SHEET_ID c)
    (GOOGLE_SERVICE_ACCOUNT_FILE c) (FITBIT_TOKEN_FILE c) (API_KEY c) (SERVER_PORT c).
Definition set_GOOGLE_SHEET_ID (v : string) (c : settings) : settings :=
  mksettings (_loaded c) (FITBIT_CLIENT_ID c) (FITBIT_CLIENT_SECRET c) v
    (GOOGLE_SERVICE_ACCOUNT_FILE c) (FITBIT_TOKEN_FILE c) (API_KEY c) (SERVER_PORT c).
Definition set_GOOGLE_SERVICE_ACCOUNT_FILE (v : string) (c : settings) : settings :=
  mksettings (_loaded c) (FITBIT_CLIENT_ID c) (FITBIT_CLIENT_SECRET c) (GOOGLE_SHEET_ID c)
    v (FITBIT_TOKEN_FILE c) (API_KEY c) (SERVER_PORT c).
Definition set_FITBIT_TOKEN_FILE (v : string) (c : settings) : settings :=
  mksettings (_loaded c) (FITBIT_CLIENT_ID c) (FITBIT_CLIENT_SECRET c) (GOOGLE_SHEET_ID c)
    (GOOGLE_SERVICE_ACCOUNT_FILE c) v (API_KEY c) (SERVER_PORT c).
Definition set_API_KEY (v : string) (c : settings) : settings :=
  mksettings (_loaded c) (FITBIT_CLIENT_ID c) (FITBIT_CLIENT_SECRET c) (GOOGLE_SHEET_ID c)
    (GOOGLE_SERVICE_ACCOUNT_FILE c) (FITBIT_TOKEN_FILE c) v (SERVER_PORT c).
Definition set_SERVER_PORT (v : Z) (c : settings) : settings :=
  mksettings (_loaded c) (FITBIT_CLIENT_ID c) (FITBIT_CLIENT_SECRET c) (GOOGLE_SHEET_ID c)
    (GOOGLE_SERVICE_ACCOUNT_FILE c) (FITBIT_TOKEN_FILE c) (API_KEY c) v.
Definition set_loaded (v : bool) (c : settings) : settings :=
  mksettings v (FITBIT_CLIENT_ID c) (FITBIT_CLIENT_SECRET c) (GOOGLE_SHEET_ID c)
    (GOOGLE_SERVICE_ACCOUNT_FILE c) (FITBIT_TOKEN_FILE c) (API_KEY c) (SERVER_PORT c).

(** [_require(var_name)]: the value, or [sys.exit(1)] when the variable is
    unset or empty. *)
Definition _require (var_name : string) (env : environ) : outcome string :=
  match getenv var_name env with
  | Some val => if String.eqb val "" then Exited 1 else Done val
  | None => Exited 1
  end.

(** [os.getenv(name, default)] *)
Definition getenv_default (name default : string) (env : environ) : string :=
  match getenv name env with
  | Some v => v
  | None => default
  end.

Section Loading.
Context {U : PyUnicode}.

(** [str(_project_root / "service_account.json")] and
    [str(_project_root / "tokens.json")]. *)
Variable default_service_account_file : string.
Variable default_token_file : string.

(** The values the names have when the module is imported. *)
Definition at_import : settings :=
  mksettings false "" "" "" default_service_account_file default_token_file "" 8585.

(** [_ensure_loaded()]: the assignments take effect one after the other,
    so what was assigned before a failing step stays assigned. *)
Definition _ensure_loaded (env : environ) (c : settings) : outcome unit * settings :=
  if _loaded c then (Done tt, c)
  else
    match _require "FITBIT_CLIENT_ID" env with
    | Failed e => (Failed e, c)
    | Exited x => (Exited x, c)
    | Done client_id =>
        let c1 := set_FITBIT_CLIENT_ID client_id c in
        match _require "FITBIT_CLIENT_SECRET" env with
        | Failed e => (Failed e, c1)
        | Exited x => (Exited x, c1)
        | Done secret =>
            let c2 := set_FITBIT_CLIENT_SECRET secret c1 in
            match _require "GOOGLE_SHEET_ID" env with
            | Failed e => (Failed e, c2)
            | Exited x => (Exited x, c2)
            | Done sheet =>
                let c3 := set_GOOGLE_SHEET_ID sheet c2 in
                let c4 := set_GOOGLE_SERVICE_ACCOUNT_FILE
                            (getenv_default "GOOGLE_SERVICE_ACCOUNT_FILE"
                               default_service_account_file env) c3 in
                let c5 := set_FITBIT_TOKEN_FILE
                            (getenv_default "FITBIT_TOKEN_FILE" default_token_file env)
                            c4 in
                match _require "API_KEY" env with
                | Failed e => (Failed e, c5)
                | Exited x => (Exited x, c5)
                | Done key =>
                    let c6 := set_API_KEY key c5 in
                    match Main.int (getenv_default "SERVER_PORT" "8585" env) with
                    | Raise e => (Failed e, c6)
                    | Ok port => (Done tt, set_loaded true (set_SERVER_PORT port c6))
                    end
                end
            end
        end
    end.

End Loading.
End Config.

(* ===================================================================== *)
(** * fitbit_auth.py: the local callback *)
(* ===================================================================== *)

Module FitbitAuth.
Import Python.

(** [parse_qs(urlparse(self.path).query)], as in [Server]. *)
Definition query : Type := list (string * (string * list string)).

(** The class attributes of [_CallbackHandler]. *)
Record handler_state : Type := mkhandler_state {
  auth_code : option string;
  error : option string
}.

(** [_CallbackHandler.do_GET]: the message of the page sent back (always
    with status 200) and the class attributes after it. *)
Definition callback_do_GET (q : query) (st : handler_state) : string * handler_state :=
  match Server.find_param "code" q with
  | Some (code, _) =>
      ("Authorization successful! You can close this tab.",
       mkhandler_state (Some code) (error st))
  | None =>
      let err :=
        match Server.find_param "error" q with
        | Some (e, _) => e
        | None => "unknown"
        end in
      ("Authorization failed: " ++ err, mkhandler_state (auth_code st) (Some err))
  end.

(** How [_wait_for_callback] ends. *)
Inductive wait_outcome : Type :=
| Returned (code : string)
| RuntimeError (msg : string).

(** [if x:] on an attribute that is [None] or text. *)
Definition is_set (x : option string) : bool :=
  match x with
  | Some s => negb (String.eqb s "")
  | None => false
  end.

(** [_wait_for_callback()]: [incoming] is the request that
    [server.handle_request()] handles, [None] when the 120 seconds pass
    without one. *)
Definition _wait_for_callback (incoming : option query) (st : handler_state)
  : wait_outcome * handler_state :=
  let st0 := mkhandler_state None None in
  let st1 :=
    match incoming with
    | Some q => snd (callback_do_GET q st0)
    | None => st0
    end in
  if is_set (error st1)
  then (RuntimeError ("OAuth error: "
                      ++ match error st1 with Some e => e | None => "None" end), st1)
  else if negb (is_set (auth_code st1))
  then (RuntimeError "No authorization code received (timed out).", st1)
  else (Returned (match auth_code st1 with Some c => c | None => "" end), st1).

End FitbitAuth.

(* ===================================================================== *)
(** * An instance of the float operations, to run the definitions *)
(* ===================================================================== *)

(** Exact decimal arithmetic on rationals.  It stands in for binary
    floating point where a definition is evaluated on an example; nothing
    is proved from it about Python's floats. *)
Module Exact.
Import Python.

Definition pow10 (n : Z) : positive := Z.to_pos (10 ^ n).

Definition round_q (x : Q) (ndigits : Z) : Q :=
  let s := pow10 ndigits in
  Qred (Qmake (Qfloor (x * (Zpos s # 1) + (1 # 2))%Q) s).

Definition div_q (x : Q) (b : Z) : Q := Qred (x / inject_Z b)%Q.

(** Fraction digits of [r / den], at most [fuel] of them. *)
Fixpoint fraction (fuel : nat) (r den : Z) : string :=
  match fuel with
  | O => EmptyString
  | S fuel' =>
      if r =? 0 then EmptyString
      else str_of_Z (r * 10 / den) ++ fraction fuel' (r * 10 mod den) den
  end.

Definition repr_q (x : Q) : string :=
  let n := Qnum x in
  let d := Zpos (Qden x) in
  let a := Z.abs n in
  (if n <? 0 then "-" else "")
  ++ str_of_Z (a / d) ++ "."
  ++ (if a mod d =? 0 then "0" else fraction 17 (a mod d) d).

#[export] Instance exact : PyFloat := {|
  float := Q;
  float_round := round_q;
  float_truthy := fun x => negb (Qnum x =? 0);
  int_truediv := fun a b => Some (div_q (inject_Z a) b);
  float_truediv := div_q;
  float_repr := repr_q
|}.

(** The examples are ASCII text, on which the Unicode tables have no
    say; this instance only fills the place. *)
#[export] Instance ascii_only : PyUnicode := {|
  int_unicode := fun _ => None;
  capitalize_unicode := fun s => s
|}.

End Exact.

(* ===================================================================== *)
(** * Vocabulary of the properties *)
(* ===================================================================== *)

Module Props.
Import Python FitbitClient.

Section Vocabulary.
Context {F : PyFloat} {U : PyUnicode}.

(** [e.get(k)] on a dict. *)
Definition entry_value (e : dict) (k : string) : value :=
  match lookup k e with Some v => v | None => VNone end.


(** A JSON array whose elements are all objects. *)
Fixpoint as_dicts (l : list value) : option (list dict) :=
  match l with
  | [] => Some []
  | VDict e :: rest => option_map (cons e) (as_dicts rest)
  | _ :: _ => None
  end.

(** The list of objects under key [k], empty when the key is absent. *)
Definition objects_at (k : string) (d : dict) : option (list dict) :=
  match lookup k d with
  | None => Some []
  | Some (VList l) => as_dicts l
  | Some _ => None
  end.

(** The object under key [k], empty when the key is absent. *)
Definition object_at (k : string) (d : dict) : option dict :=
  match lookup k d with
  | None => Some []
  | Some (VDict o) => Some o
  | Some _ => None
  end.

(** An entry of the distances list tagged ["activity": "total"]. *)
Definition tagged_total (e : dict) : bool :=
  eq_str (entry_value e "activity") "total".

(** An entry of the sleep list whose [isMainSleep] is truthy. *)
Definition flagged_main (e : dict) : bool :=
  truthy (entry_value e "isMainSleep").

(** The entry the sleep row is built from: the first flagged one, or
    the first entry when none is flagged. *)
Definition selected_sleep (entries : list dict) : option dict :=
  match find flagged_main entries with
  | Some e => Some e
  | None => hd_error entries
  end.

(** Key [k] of [d] is absent or holds an object. *)
Definition object_or_absent (d : dict) (k : string) : bool :=
  match object_at k d with Some _ => true | None => false end.

(** The [levels] part of a sleep entry is shaped as the API documents it:
    [levels], its [summary] and the four stages are objects where
    present. *)
Definition levels_ok (e : dict) : bool :=
  match object_at "levels" e with
  | Some levels =>
      match object_at "summary" levels with
      | Some sm => forallb (object_or_absent sm) ["deep"; "light"; "rem"; "wake"]
      | None => false
      end
  | None => false
  end.

(** The text [get_exercises] takes the date of an activity from:
    [startDate], or [originalStartTime] when [startDate] is absent, or the
    empty text when both are; [None] when the field is not text. *)
Definition start_text (a : dict) : option string :=
  match lookup "startDate" a with
  | Some (VStr t) => Some t
  | Some _ => None
  | None =>
      match lookup "originalStartTime" a with
      | Some (VStr t) => Some t
      | Some _ => None
      | None => Some ""
      end
  end.

(** The first 10 characters of the start text are the date [d]. *)
Definition on_date (d : date) (a : dict) : bool :=
  match start_text a with
  | Some t => String.eqb (prefix 10 t) (isoformat d)
  | None => false
  end.

Fixpoint map_result {A B : Type} (f : A -> result B) (l : list A) : result (list B) :=
  match l with
  | [] => Ok []
  | x :: rest =>
      match f x with
      | Ok y =>
          match map_result f rest with
          | Ok ys => Ok (y :: ys)
          | Raise e => Raise e
          end
      | Raise e => Raise e
      end
  end.



(** The bodies counted as empty but well formed, per endpoint: the empty
    object, and the object whose list (for the activity summary: whose
    [summary], or its [distances] list) is empty. *)
Definition empty_bodies : list ((date -> string) * list value) :=
  [(activities_path,
    [VDict []; VDict [("summary", VDict [])];
     VDict [("summary", VDict [("distances", VList [])])]]);
   (azm_path, [VDict []; VDict [("activities-active-zone-minutes", VList [])]]);
   (sleep_path, [VDict []; VDict [("sleep", VList [])]]);
   (heart_path, [VDict []; VDict [("activities-heart", VList [])]]);
   (hrv_path, [VDict []; VDict [("hrv", VList [])]]);
   (spo2_path, [VDict []; VDict [("value", VList [])]]);
   (br_path, [VDict []; VDict [("br", VList [])]]);
   (skin_path, [VDict []; VDict [("tempSkin", VList [])]]);
   (cardio_path, [VDict []; VDict [("cardioScore", VList [])]]);
   (exercises_path, [VDict []; VDict [("activities", VList [])]])].

(** Every endpoint of session [s] answers the request for date [d] with
    one of its empty bodies. *)
Definition empty_session (s : session) (d : date) : Prop :=
  forall p bodies,
    In (p, bodies) empty_bodies ->
    exists b, In b bodies /\ _get s (p d) = Ok b.

(** The row of defaults. *)
Definition default_row : dict :=
  [("steps", VInt 0); ("distance_km", VInt 0); ("floors", VInt 0);
   ("calories_total", VInt 0); ("calories_activity", VInt 0);
   ("azm_fat_burn", VInt 0); ("azm_cardio", VInt 0);
   ("azm_peak", VInt 0); ("azm_total", VInt 0);
   ("sleep_start", VStr ""); ("sleep_end", VStr "");
   ("sleep_duration_hrs", VInt 0); ("sleep_efficiency", VInt 0);
   ("sleep_deep_min", VInt 0); ("sleep_light_min", VInt 0);
   ("sleep_rem_min", VInt 0); ("sleep_wake_min", VInt 0);
   ("rhr", VStr ""); ("hrv_rmssd", VStr "");
   ("spo2_avg", VStr ""); ("spo2_min", VStr ""); ("spo2_max", VStr "");
   ("breathing_rate", VStr ""); ("skin_temp_variation", VStr "");
   ("vo2_max", VStr ""); ("exercises", VStr "None")].

(** The keys each fetcher of [fetchers] puts in its mapping, in the
    order of that list. *)
Definition produced_keys : list (list string) :=
  [["steps"; "distance_km"; "floors"; "calories_total"; "calories_activity"];
   ["azm_fat_burn"; "azm_cardio"; "azm_peak"; "azm_total"];
   ["sleep_start"; "sleep_end"; "sleep_duration_hrs"; "sleep_efficiency";
    "sleep_deep_min"; "sleep_light_min"; "sleep_rem_min"; "sleep_wake_min"];
   ["rhr"];
   ["hrv_rmssd"];
   ["spo2_avg"; "spo2_min"; "spo2_max"];
   ["breathing_rate"];
   ["skin_temp_variation"];
   ["vo2_max"];
   ["exercises"]].

(** ** Vocabulary for the sheet writer *)

(** The state reached from [w] once the rows [done] were appended to tab
    [tab] and taken by the spreadsheet. *)
Definition after_rows (tab : string) (done : list SheetsWriter.row)
  (w : SheetsWriter.world) : SheetsWriter.world :=
  SheetsWriter.mkworld (SheetsWriter.clock_reads w)
    (SheetsWriter.attempted w ++ map (pair tab) done)%list
    (SheetsWriter.committed w ++ map (pair tab) done)%list.

(** The spreadsheet API takes each row of [rows], one after the other,
    starting in state [w]. *)
Definition appends_ok (svc : SheetsWriter.services) (tab : string)
  (rows : list SheetsWriter.row) (w : SheetsWriter.world) : Prop :=
  forall before r rest,
    rows = (before ++ r :: rest)%list ->
    SheetsWriter.api_fault svc (after_rows tab before w) tab r = None.

(** The state right after [_timestamp()] was called in state [w]. *)
Definition stamped (w : SheetsWriter.world) : SheetsWriter.world :=
  SheetsWriter.mkworld (S (SheetsWriter.clock_reads w))
    (SheetsWriter.attempted w) (SheetsWriter.committed w).

(** ** Vocabulary for the aggregate fetch *)

(** The mapping a fetcher call contributes to the row: its result, or
    nothing when it raised. *)
Definition contribution (o : result dict) : dict :=
  match o with
  | Ok r => r
  | Raise _ => []
  end.

(** What fetcher [g] contributes for session [s] and date [d], and the
    keys of that. *)
Definition contributed (s : session) (d : date) (g : string * fetcher) : dict :=
  contribution (snd g s d).

Definition contributed_keys (s : session) (d : date) (g : string * fetcher)
  : list string :=
  keys (contributed s d g).

Definition mem (k : string) (l : list string) : bool := existsb (String.eqb k) l.

Fixpoint nodupb (l : list string) : bool :=
  match l with
  | [] => true
  | x :: rest => andb (negb (mem x rest)) (nodupb rest)
  end.

(** The key lists [ks] with the one at position [i] emptied. *)
Fixpoint mask (i : nat) (ks : list (list string)) {struct ks} : list (list string) :=
  match ks, i with
  | [], _ => []
  | _ :: rest, O => [] :: rest
  | k :: rest, S i' => k :: mask i' rest
  end.

(** ** Vocabulary for the further properties *)

(** The request paths of the fetchers, in the order of [fetchers]. *)
Definition paths : list (date -> string) :=
  [activities_path; azm_path; sleep_path; heart_path; hrv_path;
   spo2_path; br_path; skin_path; cardio_path; exercises_path].

Definition raised (o : result dict) : bool :=
  match o with
  | Raise _ => true
  | Ok _ => false
  end.

(** The names of the fetchers of [fns] that raise, in order. *)
Definition failed_names (s : session) (d : date) (fns : list (string * fetcher))
  : list string :=
  map fst (filter (fun g : string * fetcher => raised (snd g s d)) fns).

(** [e.get(k, default)] on a dict. *)
Definition value_or (default : value) (e : dict) (k : string) : value :=
  match lookup k e with Some v => v | None => default end.

(** The fetchers that read the first entry of a list, each with its path
    and the key of the list. *)
Definition first_entry_fetchers : list (fetcher * (date -> string) * string) :=
  [(get_azm, azm_path, "activities-active-zone-minutes");
   (get_heart_rate, heart_path, "activities-heart");
   (get_hrv, hrv_path, "hrv");
   (get_breathing_rate, br_path, "br");
   (get_skin_temp, skin_path, "tempSkin");
   (get_vo2_max, cardio_path, "cardioScore")].

(** [levels.summary.<stage>.minutes] of a sleep entry, 0 where a level of
    the path is absent. *)
Definition stage_value (e : dict) (stage : string) : value :=
  match object_at "levels" e with
  | Some levels =>
      match object_at "summary" levels with
      | Some sm =>
          match object_at stage sm with
          | Some o => value_or (VInt 0) o "minutes"
          | None => VInt 0
          end
      | None => VInt 0
      end
  | None => VInt 0
  end.

(** [l] is [full] or empty. *)
Definition all_or_none {A : Type} (l full : list A) : Prop := l = full \/ l = [].






(** The call [res], made in state [w] to append [rows] to tab [tab], left
    the first [n] rows taken, in order, and tried at most the row after
    them; it returned only with all of them taken. *)
Definition prefix_written (tab : string) (rows : list SheetsWriter.row)
  (w : SheetsWriter.world) (res : outcome unit * SheetsWriter.world) : Prop :=
  exists n,
    (n <= List.length rows)%nat
    /\ SheetsWriter.committed (snd res)
       = (SheetsWriter.committed w ++ map (pair tab) (firstn n rows))%list
    /\ (SheetsWriter.attempted (snd res)
        = (SheetsWriter.attempted w ++ map (pair tab) (firstn n rows))%list
        \/ (n < List.length rows)%nat
           /\ SheetsWriter.attempted (snd res)
              = (SheetsWriter.attempted w ++ map (pair tab) (firstn (S n) rows))%list)
    /\ (fst res = Done tt -> n = List.length rows).

(** The position, in [produced_keys], of the first list that holds [k]. *)
Fixpoint owner_in (k : string) (ks : list (list string)) : nat :=
  match ks with
  | [] => O
  | l :: rest => if mem k l then O else S (owner_in k rest)
  end.

Definition key_owner (k : string) : nat := owner_in k produced_keys.

(** ** Vocabulary for the HTTP trigger and the configuration *)

(** The request is for [/fetch] and carries the configured key. *)
Definition authorized (API_KEY : string) (r : Server.request) : Prop :=
  Server.req_path r = "/fetch"
  /\ Server.first_value "key" r = Some API_KEY
  /\ API_KEY <> ""
  /\ Server.is_ascii API_KEY = true.

(** The date the request asks for is [d]: today without a [date]
    parameter, the parsed parameter otherwise. *)
Definition target_date (fromisoformat : string -> result date) (today : date)
  (r : Server.request) (d : date) : Prop :=
  (Server.first_value "date" r = None /\ d = today)
  \/ (exists rd,
        Server.first_value "date" r = Some rd /\ rd <> "" /\ fromisoformat rd = Ok d).


(** The variables [_ensure_loaded] requires. *)
Definition required_variables : list string :=
  ["FITBIT_CLIENT_ID"; "FITBIT_CLIENT_SECRET"; "GOOGLE_SHEET_ID"; "API_KEY"].

(** The variable is set to a text that is not empty. *)
Definition variable_set (env : Config.environ) (name : string) : bool :=
  match Config.getenv name env with
  | Some v => negb (String.eqb v "")
  | None => false
  end.

End Vocabulary.
End Props.

(* ===================================================================== *)
(** * Sample inputs *)
(* ===================================================================== *)

Module Examples.
Import Python FitbitClient Exact.

Definition day : date := mkdate 2024 1 15.

Definition empty_ok : result response := Ok (mkresponse 200 (Some (VDict []))).

(** A handle that answers [body] at [path] and the empty object at every
    other address. *)
Definition serve (path : string) (body : value) : session :=
  fun url =>
    if String.eqb url (BASE ++ path)
    then Ok (mkresponse 200 (Some body))
    else empty_ok.

(** A handle whose sleep endpoint answers 500 and every other one the
    empty object. *)
Definition sleep_down : session :=
  fun url =>
    if String.eqb url (BASE ++ sleep_path day)
    then Ok (mkresponse 500 None)
    else empty_ok.

Definition env_of (s : session) : environment := mkenvironment true (Ok true) s day.

Definition total_entry : dict :=
  [("activity", VStr "total"); ("distance", VFloat (10469 # 2000))].

Definition distances : list dict :=
  [[("activity", VStr "tracker"); ("distance", VFloat (26 # 5))]; total_entry].

Definition summary : dict :=
  [("steps", VInt 7042); ("distances", VList (map VDict distances))].

Definition activity_data : dict := [("summary", VDict summary)].

Definition nap : dict :=
  [("isMainSleep", VBool false); ("duration", VInt 2700000)].

Definition night : dict :=
  [("isMainSleep", VBool true); ("duration", VInt 27030000);
   ("startTime", VStr "2024-01-14T23:05:00.000");
   ("endTime", VStr "2024-01-15T06:35:30.000");
   ("efficiency", VInt 93);
   ("levels", VDict [("summary", VDict [("deep", VDict [("minutes", VInt 70)]);
                                         ("rem", VDict [("minutes", VInt 95)])])])].

Definition sleep_data : dict := [("sleep", VList [VDict nap; VDict night])].


Definition run : dict :=
  [("startDate", VStr "2024-01-15"); ("activityName", VStr "Run");
   ("activeDuration", VInt 1830000); ("calories", VInt 250)].

Definition walk_next_day : dict :=
  [("originalStartTime", VStr "2024-01-16T08:00:00.000+00:00");
   ("activityName", VStr "Walk"); ("activeDuration", VInt 600000);
   ("calories", VInt 40)].

Definition activities_data : dict :=
  [("activities", VList [VDict run; VDict walk_next_day])].

(** An activity whose [startDate] is longer than a date. *)
Definition swim : dict :=
  [("startDate", VStr "2024-01-15T07:00"); ("activityName", VStr "Swim");
   ("activeDuration", VInt 1200000); ("calories", VInt 180)].

Definition stamp (n : nat) : string :=
  if Nat.eqb n 0 then "2024-01-15 08:00:00" else "2024-01-15 08:00:01".

(** A spreadsheet that takes every row. *)
Definition sheet_up : SheetsWriter.services :=
  SheetsWriter.mkservices stamp (fun _ => Done tt) (fun _ _ _ => None).

(** A spreadsheet that refuses the call made when one row is in. *)
Definition sheet_breaks : SheetsWriter.services :=
  SheetsWriter.mkservices stamp (fun _ => Done tt)
    (fun w _ _ =>
       if Nat.eqb (List.length (SheetsWriter.committed w)) 1
       then Some (APIError "quota") else None).

Definition fresh : SheetsWriter.world := SheetsWriter.mkworld 0 [] [].

Definition reading (systolic diastolic pulse : Z) : dict :=
  [("systolic", VInt systolic); ("diastolic", VInt diastolic);
   ("pulse", VInt pulse); ("notes", VStr "")].

Definition three_readings : list dict :=
  [reading 120 80 65; reading 118 78 62; reading 115 76 60].

Definition bp_row (i systolic diastolic pulse : Z) : SheetsWriter.row :=
  [VStr "2024-01-15 08:00:00"; VInt i; VInt systolic; VInt diastolic;
   VInt pulse; VStr ""].

Definition food (name : string) (grams : Z) : dict :=
  [("food_item", VStr name); ("weight_grams", VInt grams); ("notes", VStr "")].

Definition three_items : list dict := [food "Rice" 300; food "Steak" 150; food "Yam" 200].

Definition diet_row (name : string) (grams : Z) : SheetsWriter.row :=
  [VStr "2024-01-15 08:00:00"; VStr "Lunch"; VStr name; VInt grams; VStr ""].

(** The text of one character outside ASCII (two bytes above 127). *)
Definition e_acute : string :=
  String (ascii_of_nat 195) (String (ascii_of_nat 169) EmptyString).

Definition request_with_key (k : string) : Server.request :=
  Server.mkrequest "/fetch" [("key", (k, []))].

Definition no_calls : Server.trace := Server.mktrace [] 0 0.

End Examples.

(* ===================================================================== *)
(** * Further sample inputs *)
(* ===================================================================== *)

Module Samples.
Import Python FitbitClient Exact Examples.

(** A handle whose every endpoint answers 503. *)
Definition all_down : session := fun _ => Ok (mkresponse 503 None).

(** A handle that answers the sleep request and cannot reach anything
    else. *)
Definition only_sleep : session :=
  fun url =>
    if String.eqb url (BASE ++ sleep_path day)
    then Ok (mkresponse 200 (Some (VDict sleep_data)))
    else Raise (RequestException "unreachable").

Definition spo2_value : dict :=
  [("avg", VFloat (193 # 2)); ("min", VInt 93); ("max", VInt 99)].



Definition azm_first : value :=
  VDict [("value", VDict [("activeZoneMinutes", VInt 42); ("cardioActiveZoneMinutes", VInt 12)])].
Definition azm_second : value :=
  VDict [("value", VDict [("activeZoneMinutes", VInt 7)])].


Definition full_environ : Config.environ :=
  [("FITBIT_CLIENT_ID", "23ABCD"); ("FITBIT_CLIENT_SECRET", "0123abcd");
   ("GOOGLE_SHEET_ID", "1AbC"); ("API_KEY", "secret"); ("SERVER_PORT", "9000")].

Definition no_key_environ : Config.environ :=
  [("FITBIT_CLIENT_ID", "23ABCD"); ("FITBIT_CLIENT_SECRET", "0123abcd");
   ("GOOGLE_SHEET_ID", "1AbC")].

Definition unloaded : Config.settings :=
  Config.at_import "/app/service_account.json" "/app/tokens.json".

(** [date.fromisoformat] on the two texts used below. *)
Definition parse_day (text : string) : result date :=
  if String.eqb text "2024-01-15" then Ok day else Raise ValueError.

Definition fetch_defaults (d : date) : outcome dict := Done Props.default_row.
Definition fetch_fails (d : date) : outcome dict := Failed (RequestException "offline").
Definition write_ok (m : dict) : outcome unit := Done tt.
Definition write_fails (m : dict) : outcome unit := Failed (APIError "quota").
Definition trace_text (e : exn) : string := "Traceback (most recent call last): ...".

Definition good_request : Server.request :=
  Server.mkrequest "/fetch" [("key", ("secret", [])); ("date", ("2024-01-15", []))].
Definition undated_request : Server.request :=
  Server.mkrequest "/fetch" [("key", ("secret", []))].
Definition bad_date_request : Server.request :=
  Server.mkrequest "/fetch" [("key", ("secret", [])); ("date", ("15/01/2024", []))].
Definition other_path_request : Server.request :=
  Server.mkrequest "/status" [("key", ("secret", []))].

(** An environment of [fetch_all] with no stored token. *)
Definition env_without_token : environment :=
  mkenvironment true (Ok false) (serve "" (VDict [])) day.

Definition code_query : FitbitAuth.query :=
  [("code", ("4f8a", [])); ("state", ("xyz", []))].
Definition denied_query : FitbitAuth.query :=
  [("error", ("access_denied", []))].
Definition icon_query : FitbitAuth.query := [].
Definition stale : FitbitAuth.handler_state :=
  FitbitAuth.mkhandler_state (Some "old-code") None.

End Samples.

(* ===================================================================== *)
(** * Properties of the metric fetchers *)
(* ===================================================================== *)

Module ClientFacts.
Import Python FitbitClient Props.
Local Open Scope py_scope.

Section Facts.
Context {F : PyFloat}.

Lemma as_dicts_map (l : list value) (ds : list dict) :
  as_dicts l = Some ds -> l = map VDict ds.
Proof.
  revert ds. induction l as [|v l IH]; intros ds H; simpl in H.
  - injection H as <-. reflexivity.
  - destruct v; try discriminate.
    destruct (as_dicts l) as [ds'|] eqn:E; simpl in H; try discriminate.
    injection H as <-. simpl. f_equal. apply IH. reflexivity.
Qed.

Lemma get_dict (d : dict) (k : string) (default : value) :
  get (VDict d) k default
  = Ok (match lookup k d with Some v => v | None => default end).
Proof. reflexivity. Qed.

Lemma get_object_at (d o : dict) (k : string) :
  object_at k d = Some o -> get (VDict d) k (VDict []) = Ok (VDict o).
Proof.
  unfold object_at. rewrite get_dict.
  destruct (lookup k d) as [v|]; [destruct v|]; intros H;
    try discriminate; injection H as <-; reflexivity.
Qed.

Lemma get_objects_at (d : dict) (ds : list dict) (k : string) :
  objects_at k d = Some ds ->
  get (VDict d) k (VList []) = Ok (VList (map VDict ds)).
Proof.
  unfold objects_at. rewrite get_dict.
  destruct (lookup k d) as [v|]; [destruct v|]; intros H; try discriminate.
  - apply as_dicts_map in H. subst. reflexivity.
  - injection H as <-. reflexivity.
Qed.

(** The loop of [_total_distance] stops at the first tagged entry. *)
Lemma total_distance_loop_find (ds : list dict) :
  total_distance_loop (map VDict ds)
  = match find tagged_total ds with
    | Some e => round (match lookup "distance" e with Some v => v | None => VInt 0 end) 2
    | None => Ok (VInt 0)
    end.
Proof.
  induction ds as [|e ds IH]; simpl; [reflexivity|].
  unfold tagged_total at 1, entry_value.
  destruct (lookup "activity" e) as [a|]; simpl.
  - destruct (eq_str a "total"); [reflexivity | exact IH].
  - exact IH.
Qed.

Lemma total_distance_find (sm : dict) (ds : list dict) :
  objects_at "distances" sm = Some ds ->
  _total_distance (VDict sm)
  = match find tagged_total ds with
    | Some e => round (match lookup "distance" e with Some v => v | None => VInt 0 end) 2
    | None => Ok (VInt 0)
    end.
Proof.
  intros H. unfold _total_distance.
  rewrite (get_objects_at _ _ _ H). simpl.
  apply total_distance_loop_find.
Qed.


(** C3. [distance_km] of the activity row is the [distance] of the entry
    of the distances list tagged ["activity": "total"] (the first one, as
    the loop meets it), rounded to 2 decimal places: a float [x] gives the
    float [float_round x 2], an int is its own rounding, and an entry
    without [distance] counts as 0.  With no such entry (the list absent
    or empty included) it is the int 0. *)
Theorem distance_km_total (s : session) (d : date) (data sm : dict) (ds : list dict) :
  _get s (activities_path d) = Ok (VDict data) ->
  object_at "summary" data = Some sm ->
  objects_at "distances" sm = Some ds ->
  (forall e,
      find tagged_total ds = Some e ->
      (forall x,
          lookup "distance" e = Some (VFloat x) ->
          exists row,
            get_activity_summary s d = Ok row
            /\ lookup "distance_km" row = Some (VFloat (float_round x 2)))
      /\ (forall n,
            lookup "distance" e = Some (VInt n) ->
            exists row,
              get_activity_summary s d = Ok row
              /\ lookup "distance_km" row = Some (VInt n))
      /\ (lookup "distance" e = None ->
          exists row,
            get_activity_summary s d = Ok row
            /\ lookup "distance_km" row = Some (VInt 0)))
  /\ (find tagged_total ds = None ->
      exists row,
        get_activity_summary s d = Ok row
        /\ lookup "distance_km" row = Some (VInt 0)).
Proof.
  intros Hget Hsum Hds.
  assert (Hrow : forall r, _total_distance (VDict sm) = Ok r ->
            exists row, get_activity_summary s d = Ok row
                        /\ lookup "distance_km" row = Some r).
  { intros r Hr. unfold get_activity_summary.
    rewrite Hget. cbn [bind].
    rewrite (get_object_at _ _ _ Hsum). cbn [bind].
    rewrite Hr, !get_dict. cbn [bind].
    eexists. split; reflexivity. }
  pose proof (total_distance_find sm ds Hds) as Htd.
  split.
  - intros e Hfind. rewrite Hfind in Htd.
    split; [|split].
    + intros x Hv. rewrite Hv in Htd. exact (Hrow _ Htd).
    + intros n Hv. rewrite Hv in Htd. exact (Hrow _ Htd).
    + intros Hv. rewrite Hv in Htd. exact (Hrow _ Htd).
  - intros Hfind. rewrite Hfind in Htd. exact (Hrow _ Htd).
Qed.


(** ** Sleep *)

Lemma flagged_main_truthy (e : dict) :
  flagged_main e = true -> truthy (VDict e) = true.
Proof.
  unfold flagged_main, entry_value. destruct e as [|kv e]; simpl; auto.
Qed.

(** The loop of [get_sleep] finds the first flagged entry. *)
Lemma main_sleep_loop_find (entries : list dict) :
  main_sleep_loop (map VDict entries)
  = Ok (match find flagged_main entries with Some e => VDict e | None => VNone end).
Proof.
  induction entries as [|e entries IH]; simpl; [reflexivity|].
  unfold flagged_main at 1, entry_value.
  destruct (lookup "isMainSleep" e) as [v|]; simpl.
  - destruct (truthy v); [reflexivity | exact IH].
  - exact IH.
Qed.

Lemma select_main_selected (entries : list dict) :
  select_main (VList (map VDict entries))
  = Ok (match selected_sleep entries with Some e => VDict e | None => VNone end).
Proof.
  unfold select_main, selected_sleep. cbn [iter bind].
  rewrite main_sleep_loop_find. cbn [bind].
  destruct (find flagged_main entries) as [e|] eqn:Hf.
  - apply find_some in Hf. destruct Hf as [_ Hf].
    rewrite (flagged_main_truthy e Hf). reflexivity.
  - destruct entries; reflexivity.
Qed.




(** ** VO2 max *)



(** ** Exercises *)

Lemma log_date_text (a : dict) (t : string) :
  start_text a = Some t -> log_date (VDict a) = Ok (VStr (prefix 10 t)).
Proof.
  unfold start_text, log_date.
  rewrite get_dict. cbn [bind]. rewrite get_dict. cbn [bind].
  destruct (lookup "startDate" a) as [v|].
  - destruct v; intros H; try discriminate. injection H as <-. reflexivity.
  - destruct (lookup "originalStartTime" a) as [v|].
    + destruct v; intros H; try discriminate. injection H as <-. reflexivity.
    + intros H. injection H as <-. reflexivity.
Qed.

(** The loop of [get_exercises] keeps the activities dated [d], in
    order. *)
Lemma exercise_parts_filter (d : date) (acts : list dict) :
  (forall a, In a acts -> start_text a <> None) ->
  exercise_parts d (map VDict acts)
  = map_result (fun a => exercise_part (VDict a)) (filter (on_date d) acts).
Proof.
  induction acts as [|a acts IH]; intros Hwf; [reflexivity|].
  assert (IH' := IH (fun b Hb => Hwf b (or_intror Hb))). clear IH.
  destruct (start_text a) as [t|] eqn:Et;
    [|exfalso; exact (Hwf a (or_introl eq_refl) Et)].
  cbn [map exercise_parts filter]. rewrite (log_date_text a t Et). cbn [bind eq_str].
  unfold on_date at 1. rewrite Et.
  destruct (String.eqb (prefix 10 t) (isoformat d)); cbn [negb].
  - cbn [map_result]. rewrite IH'.
    destruct (exercise_part (VDict a)); cbn [bind]; [|reflexivity].
    destruct (map_result _ _); reflexivity.
  - exact IH'.
Qed.

Lemma map_result_nil {A B : Type} (f : A -> result B) (l : list A) :
  map_result f l = Ok [] -> l = [].
Proof.
  destruct l as [|x l]; [reflexivity|]. cbn.
  destruct (f x); [|discriminate]. destruct (map_result f l); discriminate.
Qed.

(** C10, as the code has it.  The [exercises] text lists, in order,
    exactly the activities for which the first 10 characters of
    [startDate] (of [originalStartTime] when [startDate] is absent) are
    the date [d]; the others are left out, and when all are left out the
    text is ["None"]. *)
Theorem exercises_on_date (s : session) (d : date) (data : dict) (acts : list dict) :
  _get s (exercises_path d) = Ok (VDict data) ->
  objects_at "activities" data = Some acts ->
  (forall a, In a acts -> start_text a <> None) ->
  (forall parts,
      map_result (fun a => exercise_part (VDict a)) (filter (on_date d) acts) = Ok parts ->
      get_exercises s d
      = Ok [("exercises",
             VStr (match parts with [] => "None" | _ => join "; " parts end))])
  /\ (filter (on_date d) acts = [] ->
      get_exercises s d = Ok [("exercises", VStr "None")]).
Proof.
  intros Hget Hacts Hwf.
  assert (Hmain : forall parts,
      map_result (fun a => exercise_part (VDict a)) (filter (on_date d) acts) = Ok parts ->
      get_exercises s d
      = Ok [("exercises",
             VStr (match parts with [] => "None" | _ => join "; " parts end))]).
  { intros parts Hparts. unfold get_exercises. rewrite Hget. cbn [bind].
    unfold exercises_of. rewrite (get_objects_at _ _ _ Hacts). cbn [bind].
    destruct acts as [|a acts].
    - cbn in Hparts. injection Hparts as <-. reflexivity.
    - cbn [map truthy negb iter bind]. change (VDict a :: map VDict acts)
        with (map VDict (a :: acts)).
      rewrite (exercise_parts_filter d (a :: acts) Hwf), Hparts. reflexivity. }
  split; [exact Hmain|].
  intros Hnone. apply (Hmain []). rewrite Hnone. reflexivity.
Qed.

(** ** The aggregate fetch *)

(** One turn of the loop for a fetcher that returns. *)
Lemma fetch_step_ok (s : session) (d : date) (row : dict) (log : list string)
  (name : string) (fn : fetcher) (r : dict) :
  fn s d = Ok r -> fetch_step s d (row, log) (name, fn) = (update row r, log).
Proof. intros H. unfold fetch_step. cbn [fst snd]. rewrite H. reflexivity. Qed.

Ltac in_list := simpl; repeat (first [left; reflexivity | right]).

Ltac empty_case He p :=
  let b := fresh "b" in
  let Hin := fresh "Hin" in
  let Hb := fresh "Hb" in
  destruct (He p _ ltac:(in_list)) as [b [Hin Hb]];
  rewrite Hb; simpl in Hin;
  repeat (destruct Hin as [<-|Hin]; [reflexivity|]);
  contradiction.

(** C1. When every endpoint answers with an empty body, the aggregate
    fetch returns the row that binds each of the 26 keys to its default:
    the int 0 for the activity, AZM and sleep numbers, [""] for the sleep
    times, rhr, hrv_rmssd, the three spo2 fields, breathing_rate,
    skin_temp_variation and vo2_max, and ["None"] for exercises. *)
Theorem empty_bodies_give_defaults (env : environment) (s : session) (d : date) :
  get_session env = Done s ->
  empty_session s d ->
  fetch_all env (Some d) = Done default_row.
Proof.
  intros Hs He.
  assert (H1 : get_activity_summary s d
               = Ok [("steps", VInt 0); ("distance_km", VInt 0); ("floors", VInt 0);
                     ("calories_total", VInt 0); ("calories_activity", VInt 0)]).
  { unfold get_activity_summary. empty_case He activities_path. }
  assert (H2 : get_azm s d
               = Ok [("azm_fat_burn", VInt 0); ("azm_cardio", VInt 0);
                     ("azm_peak", VInt 0); ("azm_total", VInt 0)]).
  { unfold get_azm. empty_case He azm_path. }
  assert (H3 : get_sleep s d = Ok no_sleep).
  { unfold get_sleep. empty_case He sleep_path. }
  assert (H4 : get_heart_rate s d = Ok [("rhr", VStr "")]).
  { unfold get_heart_rate. empty_case He heart_path. }
  assert (H5 : get_hrv s d = Ok [("hrv_rmssd", VStr "")]).
  { unfold get_hrv. empty_case He hrv_path. }
  assert (H6 : get_spo2 s d
               = Ok [("spo2_avg", VStr ""); ("spo2_min", VStr ""); ("spo2_max", VStr "")]).
  { unfold get_spo2. empty_case He spo2_path. }
  assert (H7 : get_breathing_rate s d = Ok [("breathing_rate", VStr "")]).
  { unfold get_breathing_rate. empty_case He br_path. }
  assert (H8 : get_skin_temp s d = Ok [("skin_temp_variation", VStr "")]).
  { unfold get_skin_temp. empty_case He skin_path. }
  assert (H9 : get_vo2_max s d = Ok [("vo2_max", VStr "")]).
  { unfold get_vo2_max. empty_case He cardio_path. }
  assert (H10 : get_exercises s d = Ok [("exercises", VStr "None")]).
  { unfold get_exercises. empty_case He exercises_path. }
  unfold fetch_all, fetch_all_log. rewrite Hs.
  unfold run_fetchers, fetchers. cbn [fold_left].
  rewrite (fetch_step_ok s d _ _ _ _ _ H1), (fetch_step_ok s d _ _ _ _ _ H2),
    (fetch_step_ok s d _ _ _ _ _ H3), (fetch_step_ok s d _ _ _ _ _ H4),
    (fetch_step_ok s d _ _ _ _ _ H5), (fetch_step_ok s d _ _ _ _ _ H6),
    (fetch_step_ok s d _ _ _ _ _ H7), (fetch_step_ok s d _ _ _ _ _ H8),
    (fetch_step_ok s d _ _ _ _ _ H9), (fetch_step_ok s d _ _ _ _ _ H10).
  reflexivity.
Qed.

(** Opens a successful run of a fetcher into the steps it is made of. *)
Ltac open_result H :=
  repeat (cbn [bind] in H;
          match type of H with
          | bind ?m _ = Ok _ =>
              let E := fresh "E" in
              destruct m eqn:E; cbn [bind] in H; [|discriminate H]
          | (if ?b then _ else _) = Ok _ => destruct b
          | Ok _ = Ok _ => injection H as <-
          end).

(** Each fetcher that returns, returns a mapping with exactly its own
    keys. *)
Lemma fetcher_keys (s : session) (d : date) (j : nat) (g : string * fetcher)
  (ks : list string) (r : dict) :
  nth_error fetchers j = Some g ->
  nth_error produced_keys j = Some ks ->
  snd g s d = Ok r ->
  keys r = ks.
Proof.
  intros Hg Hks Hr.
  destruct j as [|[|[|[|[|[|[|[|[|[|j]]]]]]]]]]; cbn in Hg, Hks;
    [..|destruct j; discriminate Hg];
    injection Hg as <-; injection Hks as <-; cbn [snd] in Hr.
  - unfold get_activity_summary in Hr. open_result Hr. reflexivity.
  - unfold get_azm in Hr. open_result Hr; reflexivity.
  - unfold get_sleep, sleep_of, sleep_row in Hr. open_result Hr; reflexivity.
  - unfold get_heart_rate in Hr. open_result Hr; reflexivity.
  - unfold get_hrv in Hr. open_result Hr; reflexivity.
  - unfold get_spo2 in Hr. open_result Hr; reflexivity.
  - unfold get_breathing_rate in Hr. open_result Hr; reflexivity.
  - unfold get_skin_temp in Hr. open_result Hr; reflexivity.
  - unfold get_vo2_max, vo2_of in Hr. open_result Hr; reflexivity.
  - unfold get_exercises, exercises_of in Hr. open_result Hr; reflexivity.
Qed.

(** *** Dicts with distinct keys *)

Local Open Scope list_scope.

Lemma mem_In (k : string) (l : list string) : mem k l = true <-> In k l.
Proof.
  unfold mem. rewrite existsb_exists. split.
  - intros [x [Hx E]]. apply String.eqb_eq in E. subst. exact Hx.
  - intros H. exists k. split; [exact H | apply String.eqb_refl].
Qed.

Lemma nodupb_NoDup (l : list string) : nodupb l = true -> NoDup l.
Proof.
  induction l as [|x l IH]; intros H; [constructor|].
  cbn in H. apply andb_prop in H. destruct H as [Hx Hl].
  constructor; [|exact (IH Hl)].
  intros Hin. apply mem_In in Hin. rewrite Hin in Hx. discriminate Hx.
Qed.

Lemma keys_app (a b : dict) : keys (a ++ b) = (keys a ++ keys b)%list.
Proof. unfold keys. apply map_app. Qed.

Lemma setitem_fresh (k : string) (v : value) (d : dict) :
  ~ In k (keys d) -> setitem k v d = (d ++ [(k, v)])%list.
Proof.
  induction d as [|[k' v'] d IH]; intros H; [reflexivity|].
  cbn [setitem]. destruct (String.eqb_spec k k') as [->|Hne].
  - exfalso. apply H. left. reflexivity.
  - cbn. f_equal. apply IH. intros Hin. apply H. right. exact Hin.
Qed.

(** [update] with keys that are new and distinct appends. *)
Lemma update_disjoint (r acc : dict) :
  NoDup (keys acc ++ keys r) -> update acc r = (acc ++ r)%list.
Proof.
  revert acc. induction r as [|[k v] r IH]; intros acc H.
  - cbn. rewrite app_nil_r. reflexivity.
  - change (update acc ((k, v) :: r)) with (update (setitem k v acc) r).
    cbn [keys map fst] in H.
    assert (Hk : ~ In k (keys acc)).
    { intros Hin. apply NoDup_remove_2 in H. apply H.
      apply in_or_app. left. exact Hin. }
    rewrite (setitem_fresh k v acc Hk).
    rewrite IH.
    + rewrite <- app_assoc. reflexivity.
    + rewrite keys_app. cbn [keys map fst]. rewrite <- app_assoc. exact H.
Qed.

Lemma lookup_In (k : string) (v : value) (d : dict) :
  lookup k d = Some v -> In (k, v) d.
Proof.
  induction d as [|[k' v'] d IH]; cbn; [discriminate|].
  destruct (String.eqb_spec k k') as [->|Hne]; intros H.
  - injection H as <-. left. reflexivity.
  - right. exact (IH H).
Qed.

Lemma In_lookup (k : string) (v : value) (d : dict) :
  NoDup (keys d) -> In (k, v) d -> lookup k d = Some v.
Proof.
  induction d as [|[k' v'] d IH]; intros Hnd Hin; [contradiction|].
  cbn [keys map fst] in Hnd. inversion Hnd as [|x l Hx Hl]; subst.
  cbn [lookup]. destruct Hin as [E|Hin].
  - injection E as -> ->. rewrite String.eqb_refl. reflexivity.
  - destruct (String.eqb_spec k k') as [->|Hne].
    + exfalso. apply Hx. apply (in_map fst) in Hin. exact Hin.
    + exact (IH Hl Hin).
Qed.

Lemma lookup_None (k : string) (d : dict) :
  lookup k d = None <-> mem k (keys d) = false.
Proof.
  induction d as [|[k' v'] d IH]; cbn; [tauto|].
  destruct (String.eqb k k'); cbn; [split; discriminate | exact IH].
Qed.

Lemma keys_concat (l : list dict) : keys (List.concat l) = List.concat (map keys l).
Proof.
  induction l as [|r l IH]; [reflexivity|].
  cbn [List.concat map]. rewrite keys_app, IH. reflexivity.
Qed.

(** *** The loop of [fetch_all] *)

(** While no key comes twice, the loop appends what each fetcher
    contributes. *)
Lemma run_from (s : session) (d : date) (fns : list (string * fetcher))
  (acc : dict) (log : list string) :
  NoDup (keys acc ++ List.concat (map (contributed_keys s d) fns)) ->
  fst (fold_left (fetch_step s d) fns (acc, log))
  = (acc ++ List.concat (map (contributed s d) fns))%list.
Proof.
  revert acc log. induction fns as [|g fns IH]; intros acc log H.
  - cbn. rewrite app_nil_r. reflexivity.
  - cbn [fold_left map List.concat] in *.
    unfold contributed_keys at 1, contributed at 1 in H. unfold contributed at 1.
    assert (Hstep : fetch_step s d (acc, log) g
                    = (match snd g s d with Ok r => update acc r | Raise _ => acc end,
                       match snd g s d with Ok _ => log | Raise _ => log ++ [fst g] end)).
    { unfold fetch_step. cbn [fst snd]. destruct (snd g s d); reflexivity. }
    rewrite Hstep. clear Hstep. revert H.
    destruct (snd g s d) as [r|e]; cbn [contribution]; intros H.
    + assert (Hr : NoDup (keys acc ++ keys r)).
      { rewrite app_assoc in H. apply NoDup_app_remove_r in H. exact H. }
      rewrite (update_disjoint r acc Hr).
      rewrite IH; [rewrite <- app_assoc; reflexivity|].
      rewrite keys_app, <- app_assoc. exact H.
    + cbn [keys map app] in H. rewrite IH; [reflexivity | exact H].
Qed.

Lemma run_concat (s : session) (d : date) :
  NoDup (List.concat (map (contributed_keys s d) fetchers)) ->
  fst (run_fetchers fetchers s d)
  = List.concat (map (contributed s d) fetchers).
Proof. intros H. unfold run_fetchers. rewrite run_from; [reflexivity | exact H]. Qed.

(** The keys contributed when all fetchers of [fns] return. *)
Lemma keys_all (s : session) (d : date) (fns : list (string * fetcher))
  (ks : list (list string)) :
  List.length fns = List.length ks ->
  (forall j g k r,
      nth_error fns j = Some g -> nth_error ks j = Some k ->
      snd g s d = Ok r -> keys r = k) ->
  (forall j g, nth_error fns j = Some g -> exists r, snd g s d = Ok r) ->
  map (contributed_keys s d) fns = ks.
Proof.
  revert ks. induction fns as [|g fns IH]; intros ks Hlen Hkeys Hok.
  - destruct ks; [reflexivity | discriminate Hlen].
  - destruct ks as [|k ks]; [discriminate Hlen|].
    cbn [map]. f_equal.
    + destruct (Hok 0%nat g eq_refl) as [r Hr].
      unfold contributed_keys, contributed. rewrite Hr. cbn [contribution].
      exact (Hkeys 0%nat g k r eq_refl eq_refl Hr).
    + apply IH.
      * cbn in Hlen. lia.
      * intros j g' k' r Hg Hk. exact (Hkeys (S j) g' k' r Hg Hk).
      * intros j g' Hg. exact (Hok (S j) g' Hg).
Qed.

(** The keys contributed when the fetcher at position [i] raises and the
    others return. *)
Lemma keys_masked (s : session) (d : date) (fns : list (string * fetcher))
  (ks : list (list string)) (i : nat) :
  List.length fns = List.length ks ->
  (forall j g k r,
      nth_error fns j = Some g -> nth_error ks j = Some k ->
      snd g s d = Ok r -> keys r = k) ->
  (forall g, nth_error fns i = Some g -> exists e, snd g s d = Raise e) ->
  (forall j g, j <> i -> nth_error fns j = Some g -> exists r, snd g s d = Ok r) ->
  map (contributed_keys s d) fns = mask i ks.
Proof.
  revert ks i. induction fns as [|g fns IH]; intros ks i Hlen Hkeys Hbad Hok.
  - destruct ks; [reflexivity | discriminate Hlen].
  - destruct ks as [|k ks]; [discriminate Hlen|].
    assert (Htl : forall j g' k' r,
               nth_error fns j = Some g' -> nth_error ks j = Some k' ->
               snd g' s d = Ok r -> keys r = k').
    { intros j g' k' r Hg Hk. exact (Hkeys (S j) g' k' r Hg Hk). }
    assert (Hlen' : List.length fns = List.length ks) by (cbn in Hlen; lia).
    destruct i as [|i]; cbn [map mask]; f_equal.
    + destruct (Hbad g eq_refl) as [e He].
      unfold contributed_keys, contributed. rewrite He. reflexivity.
    + apply keys_all; [exact Hlen' | exact Htl |].
      intros j g' Hg. apply (Hok (S j) g'); [discriminate | exact Hg].
    + destruct (Hok 0%nat g ltac:(discriminate) eq_refl) as [r Hr].
      unfold contributed_keys, contributed. rewrite Hr.
      cbn [contribution]. exact (Hkeys 0%nat g k r eq_refl eq_refl Hr).
    + apply IH; [exact Hlen' | exact Htl | |].
      * intros g' Hg. exact (Hbad g' Hg).
      * intros j g' Hj Hg. apply (Hok (S j) g'); [lia | exact Hg].
Qed.

(** The 26 columns are the keys of the ten fetchers, none twice. *)
Lemma masked_keys_distinct (i : nat) :
  nodupb (List.concat (mask i produced_keys)) = true.
Proof. do 10 (destruct i as [|i]; [vm_compute; reflexivity|]). reflexivity. Qed.

Lemma masked_keys_absent (i : nat) (k : string) :
  (i < 10)%nat ->
  In k SheetsWriter.FITBIT_COLUMNS ->
  mem k (List.concat (mask i produced_keys)) = false <-> In k (nth i produced_keys []).
Proof.
  intros Hi Hk. rewrite <- mem_In.
  assert (H : forallb (fun k => Bool.eqb (negb (mem k (List.concat (mask i produced_keys))))
                                   (mem k (nth i produced_keys [])))
                SheetsWriter.FITBIT_COLUMNS = true).
  { do 10 (destruct i as [|i]; [vm_compute; reflexivity|]). lia. }
  rewrite forallb_forall in H. specialize (H k Hk).
  apply Bool.eqb_prop in H. rewrite <- H.
  destruct (mem k (List.concat (mask i produced_keys))); cbn; split; congruence.
Qed.

(** C2. When one fetcher raises and the nine others return, the aggregate
    fetch returns a row; the row binds every key of each of the nine other
    mappings to the value that mapping gave it, and of the 26 columns
    exactly the keys of the fetcher that raised are absent from it. *)
Theorem one_fetcher_fails (env : environment) (s : session) (d : date)
  (i : nat) (name : string) (fn : fetcher) (e : exn) :
  get_session env = Done s ->
  nth_error fetchers i = Some (name, fn) ->
  fn s d = Raise e ->
  (forall j g, j <> i -> nth_error fetchers j = Some g -> exists r, snd g s d = Ok r) ->
  exists row,
    fetch_all env (Some d) = Done row
    /\ (forall j g r k v,
          j <> i ->
          nth_error fetchers j = Some g ->
          snd g s d = Ok r ->
          lookup k r = Some v ->
          lookup k row = Some v)
    /\ (forall k,
          In k SheetsWriter.FITBIT_COLUMNS ->
          lookup k row = None <-> In k (nth i produced_keys [])).
Proof.
  intros Hs Hi He Hothers.
  assert (Hlt : (i < 10)%nat).
  { change 10%nat with (List.length fetchers).
    apply (proj1 (nth_error_Some fetchers i)). rewrite Hi. discriminate. }
  assert (Hmask : map (contributed_keys s d) fetchers
                  = mask i produced_keys).
  { apply keys_masked.
    - reflexivity.
    - intros j g k r. apply fetcher_keys.
    - intros g Hg. rewrite Hi in Hg. injection Hg as <-. exists e. exact He.
    - exact Hothers. }
  assert (Hnd : NoDup (List.concat (map (contributed_keys s d) fetchers))).
  { rewrite Hmask. apply nodupb_NoDup, masked_keys_distinct. }
  pose proof (run_concat s d Hnd) as Hrow.
  assert (Hkeys : keys (fst (run_fetchers fetchers s d)) = List.concat (mask i produced_keys)).
  { rewrite Hrow, keys_concat, map_map, <- Hmask. reflexivity. }
  exists (fst (run_fetchers fetchers s d)).
  split; [|split].
  - unfold fetch_all, fetch_all_log. rewrite Hs. reflexivity.
  - intros j g r k v _ Hg Hr Hl.
    apply In_lookup.
    + rewrite Hkeys. apply nodupb_NoDup, masked_keys_distinct.
    + rewrite Hrow. apply in_concat. exists r. split; [|exact (lookup_In _ _ _ Hl)].
      apply in_map_iff. exists g. unfold contributed. rewrite Hr. split; [reflexivity|].
      exact (nth_error_In _ _ Hg).
  - intros k Hk. rewrite lookup_None, Hkeys.
    exact (masked_keys_absent i k Hlt Hk).
Qed.
End Facts.

(** ** Runs on the sample inputs *)

Import Exact Examples.

Lemma distance_km_total_run :
  exists row,
    get_activity_summary (serve (activities_path day) (VDict activity_data)) day = Ok row
    /\ lookup "distance_km" row = Some (VFloat (523 # 100)).
Proof.
  exact (proj1 (proj1 (distance_km_total
                         (serve (activities_path day) (VDict activity_data)) day
                         activity_data summary distances eq_refl eq_refl eq_refl)
                      total_entry eq_refl)
               (10469 # 2000) eq_refl).
Defined.




Lemma exercises_on_date_run :
  get_exercises (serve (exercises_path day) (VDict activities_data)) day
  = Ok [("exercises", VStr "Run (30.5min, 250cal)")].
Proof.
  refine (proj1 (exercises_on_date
                   (serve (exercises_path day) (VDict activities_data)) day
                   activities_data [run; walk_next_day] _ _ _)
                ["Run (30.5min, 250cal)"] _);
    try reflexivity.
  intros a [<-|[<-|[]]]; discriminate.
Defined.

(** C10 as stated fails: an activity whose [startDate] differs from the
    date, but starts with it, is listed. *)
Lemma start_date_prefix_listed :
  ~ (forall (s : session) (d : date) (a : dict) (t : string),
        _get s (exercises_path d) = Ok (VDict [("activities", VList [VDict a])]) ->
        lookup "startDate" a = Some (VStr t) ->
        t <> isoformat d ->
        get_exercises s d = Ok [("exercises", VStr "None")]).
Proof.
  intros H.
  specialize (H (serve (exercises_path day) (VDict [("activities", VList [VDict swim])]))
                day swim "2024-01-15T07:00" eq_refl eq_refl).
  assert (Hne : "2024-01-15T07:00" <> isoformat day) by (vm_compute; discriminate).
  specialize (H Hne).
  assert (E : get_exercises
                (serve (exercises_path day) (VDict [("activities", VList [VDict swim])])) day
              = Ok [("exercises", VStr "Swim (20.0min, 180cal)")]) by reflexivity.
  rewrite E in H. discriminate H.
Qed.

Lemma empty_bodies_give_defaults_run :
  fetch_all (env_of (serve "" (VDict []))) (Some day) = Done default_row.
Proof.
  apply (empty_bodies_give_defaults (env_of (serve "" (VDict []))) (serve "" (VDict [])) day).
  - reflexivity.
  - intros p bodies Hin. cbn in Hin.
    repeat (destruct Hin as [Hin|Hin];
            [injection Hin as <- <-; exists (VDict []); split; [left|]; reflexivity|]).
    contradiction.
Defined.

Lemma one_fetcher_fails_run :
  exists row,
    fetch_all (env_of sleep_down) (Some day) = Done row
    /\ lookup "steps" row = Some (VInt 0)
    /\ lookup "exercises" row = Some (VStr "None")
    /\ lookup "sleep_start" row = None.
Proof.
  destruct (one_fetcher_fails (env_of sleep_down) sleep_down day 2 "get_sleep" get_sleep
              (HTTPError 500) eq_refl eq_refl eq_refl) as [row [Hrow [Hkept Hlost]]].
  - intros j g Hj Hg.
    do 10 (destruct j as [|j];
           [first [ exfalso; apply Hj; reflexivity
                  | cbn in Hg; injection Hg as <-; eexists; reflexivity ]|]).
    destruct j; discriminate Hg.
  - exists row. split; [exact Hrow|]. split; [|split].
    + apply (Hkept 0%nat ("get_activity_summary", get_activity_summary)
               [("steps", VInt 0); ("distance_km", VInt 0); ("floors", VInt 0);
                ("calories_total", VInt 0); ("calories_activity", VInt 0)]);
        [discriminate | reflexivity | reflexivity | reflexivity].
    + apply (Hkept 9%nat ("get_exercises", get_exercises) [("exercises", VStr "None")]);
        [discriminate | reflexivity | reflexivity | reflexivity].
    + apply Hlost; cbn; auto 20.
Defined.

End ClientFacts.

(* ===================================================================== *)
(** * Properties of the sheet writer *)
(* ===================================================================== *)

Module WriterFacts.
Import Python SheetsWriter Props.
Local Open Scope list_scope.

Section Facts.
Context {F : PyFloat} {U : PyUnicode}.
Variable svc : services.

Lemma after_rows_nil (tab : string) (w : world) : after_rows tab [] w = w.
Proof.
  unfold after_rows. cbn [map]. rewrite !app_nil_r. destruct w; reflexivity.
Qed.

Lemma after_rows_snoc (tab : string) (done : list row) (r : row) (w : world) :
  after_rows tab (done ++ [r]) w
  = mkworld (clock_reads w)
      (attempted (after_rows tab done w) ++ [(tab, r)])
      (committed (after_rows tab done w) ++ [(tab, r)]).
Proof.
  unfold after_rows. cbn [attempted committed clock_reads].
  rewrite map_app, !app_assoc. reflexivity.
Qed.

(** The loop over the rows, started after [done] rows went through: it
    stops at the first row the API refuses. *)
Lemma append_rows_from (tab : string) (rows done : list row) (w : world) :
  (forall before r rest e,
      rows = before ++ r :: rest ->
      appends_ok svc tab (done ++ before) w ->
      api_fault svc (after_rows tab (done ++ before) w) tab r = Some e ->
      append_rows svc tab rows (after_rows tab done w)
      = (Failed e,
         mkworld (clock_reads w)
           (attempted w ++ map (pair tab) (done ++ before ++ [r]))
           (committed w ++ map (pair tab) (done ++ before))))
  /\ (appends_ok svc tab (done ++ rows) w ->
      append_rows svc tab rows (after_rows tab done w)
      = (Done tt, after_rows tab (done ++ rows) w)).
Proof.
  revert done. induction rows as [|r0 rows IH]; intros done.
  - split.
    + intros before r rest e H. destruct before; discriminate H.
    + intros _. rewrite app_nil_r. reflexivity.
  - destruct (IH (done ++ [r0])) as [IHf IHo]. clear IH.
    rewrite after_rows_snoc in IHf, IHo.
    split.
    + intros before r rest e Hsplit Hok Hfault.
      destruct before as [|b before].
      * cbn in Hsplit. injection Hsplit as <- <-.
        rewrite app_nil_r in Hfault, Hok.
        cbn [append_rows]. unfold append_row. rewrite Hfault.
        unfold after_rows. cbn [attempted committed clock_reads app].
        rewrite !map_app, !app_assoc, app_nil_r. reflexivity.
      * cbn in Hsplit. injection Hsplit as <- ->.
        assert (H0 : api_fault svc (after_rows tab done w) tab r0 = None).
        { apply (Hok done r0 before). reflexivity. }
        cbn [append_rows]. unfold append_row. rewrite H0.
        replace (done ++ (r0 :: before) ++ [r]) with ((done ++ [r0]) ++ before ++ [r])
          by (rewrite <- !app_assoc; reflexivity).
        replace (done ++ r0 :: before) with ((done ++ [r0]) ++ before) in *
          by (rewrite <- !app_assoc; reflexivity).
        apply (IHf before r rest e eq_refl Hok Hfault).
    + intros Hok.
      assert (H0 : api_fault svc (after_rows tab done w) tab r0 = None).
      { apply (Hok done r0 rows). reflexivity. }
      cbn [append_rows]. unfold append_row. rewrite H0.
      replace (done ++ r0 :: rows) with ((done ++ [r0]) ++ rows) in *
        by (rewrite <- !app_assoc; reflexivity).
      apply IHo. exact Hok.
Qed.

Lemma append_rows_all (tab : string) (rows : list row) (w : world) :
  appends_ok svc tab rows w ->
  append_rows svc tab rows w = (Done tt, after_rows tab rows w).
Proof.
  intros H. pose proof (proj2 (append_rows_from tab rows [] w)) as P.
  rewrite after_rows_nil in P. exact (P H).
Qed.

Lemma append_rows_stop (tab : string) (before : list row) (r : row)
  (rest : list row) (e : exn) (w : world) :
  appends_ok svc tab before w ->
  api_fault svc (after_rows tab before w) tab r = Some e ->
  append_rows svc tab (before ++ r :: rest) w
  = (Failed e,
     mkworld (clock_reads w)
       (attempted w ++ map (pair tab) (before ++ [r]))
       (committed w ++ map (pair tab) before)).
Proof.
  intros Hok Hf.
  pose proof (proj1 (append_rows_from tab (before ++ r :: rest) [] w)
                before r rest e eq_refl Hok Hf) as P.
  rewrite after_rows_nil in P. exact P.
Qed.

Lemma bp_rows_length (ts : string) (i : Z) (readings : list dict) :
  List.length (bp_rows ts i readings) = List.length readings.
Proof.
  revert i. induction readings as [|r rs IH]; intros i; cbn; [reflexivity|].
  rewrite IH. reflexivity.
Qed.

Lemma bp_rows_nth (ts : string) (readings : list dict) (i : Z) (n : nat) (r : dict) :
  nth_error readings n = Some r ->
  nth_error (bp_rows ts i readings) n
  = Some [VStr ts; VInt (i + Z.of_nat n); field r "systolic"; field r "diastolic";
          field r "pulse"; field r "notes"].
Proof.
  revert i n. induction readings as [|r0 rs IH]; intros i n H.
  - destruct n; discriminate H.
  - destruct n as [|n].
    + cbn in H. injection H as <-. cbn. rewrite Z.add_0_r. reflexivity.
    + cbn [nth_error] in H. cbn [bp_rows nth_error].
      rewrite (IH (i + 1) n H). do 4 f_equal. lia.
Qed.

(** C8. A call of the blood-pressure writer with N readings, none of
    which the spreadsheet API refuses, reads the clock once and makes
    exactly N [append_row] calls, one per reading and in their order; the
    row of the reading at position [n] (from 0) carries that one
    timestamp and the sequence index [n + 1]. *)
Theorem append_bp_one_row_each (readings : list dict) (w : world) :
  readings <> [] ->
  open_tab svc "Blood Pressure" = Done tt ->
  appends_ok svc "Blood Pressure"
    (bp_rows (clock svc (clock_reads w)) 1 readings) (stamped w) ->
  exists w',
    append_bp svc readings w = (Done tt, w')
    /\ clock_reads w' = S (clock_reads w)
    /\ List.length (attempted w') = (List.length (attempted w) + List.length readings)%nat
    /\ List.length (committed w') = (List.length (committed w) + List.length readings)%nat
    /\ (forall n r,
          nth_error readings n = Some r ->
          let sent :=
            ("Blood Pressure",
             [VStr (clock svc (clock_reads w)); VInt (Z.of_nat n + 1);
              field r "systolic"; field r "diastolic";
              field r "pulse"; field r "notes"]) in
          nth_error (attempted w') (List.length (attempted w) + n) = Some sent
          /\ nth_error (committed w') (List.length (committed w) + n) = Some sent).
Proof.
  intros _ Hopen Hok.
  unfold append_bp, with_tab. rewrite Hopen. cbn [_timestamp].
  change (mkworld (S (clock_reads w)) (attempted w) (committed w)) with (stamped w).
  rewrite (append_rows_all _ _ _ Hok).
  eexists. split; [reflexivity|].
  unfold after_rows, stamped. cbn [clock_reads attempted committed].
  rewrite !length_app, !length_map, bp_rows_length.
  repeat split; try reflexivity.
  - rewrite nth_error_app2 by lia.
    replace (List.length (attempted w) + n - List.length (attempted w))%nat with n by lia.
    rewrite nth_error_map, (bp_rows_nth _ _ 1 n r H), (Z.add_comm 1). reflexivity.
  - rewrite nth_error_app2 by lia.
    replace (List.length (committed w) + n - List.length (committed w))%nat with n by lia.
    rewrite nth_error_map, (bp_rows_nth _ _ 1 n r H), (Z.add_comm 1). reflexivity.
Qed.

(** C9. When, in a blood-pressure or diet write, the spreadsheet API takes
    the rows [before] and refuses the next row [r] with error [e], the call
    ends with [e]; the rows of [before] stay taken, [r] was tried once and
    is the last call made, and no row after [r] was tried. *)
Theorem write_stops_at_failure (w : world) (before : list row) (r : row)
  (rest : list row) (e : exn) :
  (forall readings,
      open_tab svc "Blood Pressure" = Done tt ->
      bp_rows (clock svc (clock_reads w)) 1 readings = before ++ r :: rest ->
      appends_ok svc "Blood Pressure" before (stamped w) ->
      api_fault svc (after_rows "Blood Pressure" before (stamped w)) "Blood Pressure" r
      = Some e ->
      append_bp svc readings w
      = (Failed e,
         mkworld (S (clock_reads w))
           (attempted w ++ map (pair "Blood Pressure") (before ++ [r]))
           (committed w ++ map (pair "Blood Pressure") before)))
  /\ (forall meal items,
        open_tab svc "Diet" = Done tt ->
        diet_rows (clock svc (clock_reads w)) meal items = before ++ r :: rest ->
        appends_ok svc "Diet" before (stamped w) ->
        api_fault svc (after_rows "Diet" before (stamped w)) "Diet" r = Some e ->
        append_diet svc meal items w
        = (Failed e,
           mkworld (S (clock_reads w))
             (attempted w ++ map (pair "Diet") (before ++ [r]))
             (committed w ++ map (pair "Diet") before))).
Proof.
  split.
  - intros readings Hopen Hrows Hok Hf.
    unfold append_bp, with_tab. rewrite Hopen. cbn [_timestamp].
    change (mkworld (S (clock_reads w)) (attempted w) (committed w)) with (stamped w).
    rewrite Hrows, (append_rows_stop _ _ _ _ _ _ Hok Hf). reflexivity.
  - intros meal items Hopen Hrows Hok Hf.
    unfold append_diet, with_tab. rewrite Hopen. cbn [_timestamp].
    change (mkworld (S (clock_reads w)) (attempted w) (committed w)) with (stamped w).
    rewrite Hrows, (append_rows_stop _ _ _ _ _ _ Hok Hf). reflexivity.
Qed.

End Facts.

(** ** Runs on the sample inputs *)

Import Exact Examples.

Lemma append_bp_one_row_each_run :
  exists w',
    append_bp sheet_up three_readings fresh = (Done tt, w')
    /\ clock_reads w' = 1%nat
    /\ List.length (attempted w') = 3%nat
    /\ nth_error (attempted w') 1 = Some ("Blood Pressure", bp_row 2 118 78 62).
Proof.
  destruct (append_bp_one_row_each sheet_up three_readings fresh)
    as [w' [H1 [H2 [H3 [_ H5]]]]].
  - discriminate.
  - reflexivity.
  - intros before r rest _. reflexivity.
  - exists w'. split; [exact H1|]. split; [exact H2|]. split; [exact H3|].
    exact (proj1 (H5 1%nat (reading 118 78 62) eq_refl)).
Defined.

Lemma write_stops_at_failure_run :
  append_bp sheet_breaks three_readings fresh
  = (Failed (APIError "quota"),
     mkworld 1
       [("Blood Pressure", bp_row 1 120 80 65); ("Blood Pressure", bp_row 2 118 78 62)]
       [("Blood Pressure", bp_row 1 120 80 65)])
  /\ append_diet sheet_breaks "lunch" three_items fresh
     = (Failed (APIError "quota"),
        mkworld 1
          [("Diet", diet_row "Rice" 300); ("Diet", diet_row "Steak" 150)]
          [("Diet", diet_row "Rice" 300)]).
Proof.
  split.
  - apply (proj1 (write_stops_at_failure sheet_breaks fresh
                    [bp_row 1 120 80 65] (bp_row 2 118 78 62) [bp_row 3 115 76 60]
                    (APIError "quota"))
                 three_readings); try reflexivity.
    intros b r rest H. destruct b as [|x b].
    + injection H as <- <-. reflexivity.
    + injection H as _ H. destruct b; discriminate H.
  - apply (proj2 (write_stops_at_failure sheet_breaks fresh
                    [diet_row "Rice" 300] (diet_row "Steak" 150) [diet_row "Yam" 200]
                    (APIError "quota"))
                 "lunch" three_items); try reflexivity.
    intros b r rest H. destruct b as [|x b].
    + injection H as <- <-. reflexivity.
    + injection H as _ H. destruct b; discriminate H.
Defined.

End WriterFacts.

(* ===================================================================== *)
(** * Properties of the command line *)
(* ===================================================================== *)

Module MainFacts.
Import Python Main Props.

Section Facts.
Context {F : PyFloat} {U : PyUnicode}.
Variable svc : SheetsWriter.services.

(** Text without the separator is one part. *)
Lemma split_without (sep : ascii) (s : string) :
  has_char sep s = false -> split sep s = [s].
Proof.
  unfold has_char. induction s as [|c s IH]; intros H; [reflexivity|].
  cbn in H. apply orb_false_elim in H. destruct H as [Hc Hs].
  cbn [split]. rewrite Ascii.eqb_sym, Hc, (IH Hs). reflexivity.
Qed.

Lemma parse_reading_without_slash (raw : string) :
  has_char "/" raw = false -> parse_reading raw = Exited 1.
Proof.
  intros H. unfold parse_reading. rewrite (split_without _ _ H). reflexivity.
Qed.

(** The loop body leaves through [sys.exit] with code 1 only. *)
Lemma parse_reading_exit (raw : string) (c : Z) :
  parse_reading raw = Exited c -> c = 1.
Proof.
  unfold parse_reading.
  destruct (Nat.ltb (List.length (split "/" raw)) 2).
  - intros H. injection H as <-. reflexivity.
  - destruct (bind _ _); discriminate.
Qed.

(** A list with an argument that has no slash never gets through the
    loop. *)
Lemma parse_readings_rejects (args : list string) (raw : string) :
  In raw args ->
  has_char "/" raw = false ->
  exists o : outcome (list dict),
    parse_readings args = o
    /\ exit_status o = 1
    /\ (forall rs, o <> Done rs).
Proof.
  intros Hin Hraw. induction args as [|a args IH]; [contradiction|].
  cbn [parse_readings].
  destruct (parse_reading a) as [r|e|c] eqn:Ea.
  - destruct Hin as [->|Hin].
    + rewrite (parse_reading_without_slash raw Hraw) in Ea. discriminate Ea.
    + destruct (IH Hin) as [o [Ho [Hst Hnd]]]. rewrite Ho.
      destruct o as [rs|e|c].
      * exfalso. exact (Hnd rs eq_refl).
      * eexists. repeat split; [discriminate].
      * eexists. split; [reflexivity|]. split; [exact Hst | discriminate].
  - eexists. repeat split; discriminate.
  - apply parse_reading_exit in Ea. subst c.
    eexists. repeat split; discriminate.
Qed.

(** C6. ["120/80/65"] parses to systolic 120, diastolic 80, pulse 65, and
    ["120/80"] to systolic 120, diastolic 80 and the empty text as pulse;
    whenever one of the arguments has no slash, [cmd_bp] ends the process
    with status 1 and leaves the writer's state as it was: the clock was
    not read and no [append_row] call was made. *)
Theorem bp_arguments :
  parse_readings ["120/80/65"]
  = Done [[("systolic", VInt 120); ("diastolic", VInt 80);
           ("pulse", VInt 65); ("notes", VStr "")]]
  /\ parse_readings ["120/80"]
     = Done [[("systolic", VInt 120); ("diastolic", VInt 80);
              ("pulse", VStr ""); ("notes", VStr "")]]
  /\ (forall (args : list string) (raw : string) (w : SheetsWriter.world),
        In raw args ->
        has_char "/" raw = false ->
        exists o,
          cmd_bp svc args w = (o, w)
          /\ exit_status o = 1
          /\ exit_status o <> 0).
Proof.
  split; [reflexivity|]. split; [reflexivity|].
  intros args raw w Hin Hraw.
  destruct (parse_readings_rejects args raw Hin Hraw) as [o [Ho [Hst Hnd]]].
  unfold cmd_bp. rewrite Ho.
  destruct o as [rs|e|c].
  - exfalso. exact (Hnd rs eq_refl).
  - exists (Failed e). repeat split; discriminate.
  - exists (Exited c). cbn in Hst. subst c. repeat split; discriminate.
Qed.

End Facts.

(** ** A run on sample input *)

Import Exact Examples.

Lemma bp_arguments_run :
  exists o,
    cmd_bp sheet_up ["120/80/65"; "120"] fresh = (o, fresh)
    /\ exit_status o = 1
    /\ exit_status o <> 0.
Proof.
  apply (proj2 (proj2 (bp_arguments sheet_up)) ["120/80/65"; "120"] "120" fresh).
  - right. left. reflexivity.
  - reflexivity.
Defined.

End MainFacts.

(* ===================================================================== *)
(** * Properties of the HTTP trigger *)
(* ===================================================================== *)

Module ServerFacts.
Import Python Server Props.

Section Facts.
Context {F : PyFloat}.
Variable fetch_all : date -> outcome dict.
Variable append_fitbit : dict -> outcome unit.
Variable API_KEY : string.
Variable fromisoformat : string -> result date.
Variable today : date.
Variable format_exc : exn -> string.

(** A request to [/fetch] whose key is missing, or is ASCII text other
    than an ASCII [API_KEY], gets 403 and neither collaborator is
    called. *)
Lemma wrong_ascii_key_forbidden (r : request) (t : trace) :
  req_path r = "/fetch" ->
  is_ascii API_KEY = true ->
  (first_value "key" r = None
   \/ exists k, first_value "key" r = Some k /\ is_ascii k = true /\ k <> API_KEY) ->
  do_GET fetch_all append_fitbit API_KEY fromisoformat today format_exc r t
  = (Done tt,
     mktrace (responses t ++ [(403, "Forbidden: invalid or missing API key.")])
       (fetch_calls t) (write_calls t)).
Proof.
  intros Hp Ha Hk. unfold do_GET. rewrite Hp, String.eqb_refl. cbn [negb].
  destruct Hk as [-> | [k [-> [Hka Hne]]]]; [reflexivity|].
  destruct (String.eqb k "") eqn:E; [reflexivity|].
  unfold compare_digest. rewrite Hka, Ha. cbn [andb bind].
  apply String.eqb_neq in Hne. rewrite Hne. reflexivity.
Qed.

(** On any key that is not ASCII text the comparison raises, the
    exception leaves [do_GET], and nothing is sent and nothing called. *)
Lemma non_ascii_key_raises (r : request) (k : string) (t : trace) :
  req_path r = "/fetch" ->
  first_value "key" r = Some k ->
  is_ascii k = false ->
  do_GET fetch_all append_fitbit API_KEY fromisoformat today format_exc r t
  = (Failed TypeError, t).
Proof.
  intros Hp Hk Hna. unfold do_GET. rewrite Hp, String.eqb_refl. cbn [negb].
  rewrite Hk.
  destruct (String.eqb k "") eqn:E.
  - apply String.eqb_eq in E. subst k. discriminate Hna.
  - unfold compare_digest. rewrite Hna. reflexivity.
Qed.

(** C7, at a request the code does not answer with 403.  The key of the
    request is the one character [e_acute], which is not the configured key
    ["secret"]; the comparison raises [TypeError], which leaves [do_GET]:
    no response is sent (403 or other), and neither collaborator is
    called. *)
Theorem non_ascii_key_gets_no_response :
  Examples.e_acute <> "secret"
  /\ do_GET fetch_all append_fitbit "secret" fromisoformat today format_exc
       (Examples.request_with_key Examples.e_acute) Examples.no_calls
     = (Failed TypeError, Examples.no_calls).
Proof.
  split; [discriminate | reflexivity].
Qed.

End Facts.
End ServerFacts.

(* ===================================================================== *)
(** * Further properties of the metric fetchers *)
(* ===================================================================== *)

Module ClientMore.
Import Python FitbitClient Props ClientFacts.
Local Open Scope py_scope.

Section Facts.
Context {F : PyFloat}.

(** ** One request per fetcher *)

Ltac each_fetcher j Hg Hp :=
  destruct j as [|[|[|[|[|[|[|[|[|[|j]]]]]]]]]]; cbn in Hg, Hp;
  [..|destruct j; discriminate Hg];
  injection Hg as <-; injection Hp as <-; cbn [snd];
  unfold get_activity_summary, get_azm, get_sleep, get_heart_rate, get_hrv,
    get_spo2, get_breathing_rate, get_skin_temp, get_vo2_max, get_exercises.

(** The result of a fetcher is decided by what the handle answers at the
    fetcher's own address: two handles that agree there give the same
    result, whatever they answer elsewhere. *)
Theorem fetcher_reads_own_endpoint (s s' : session) (d : date) (j : nat)
  (g : string * fetcher) (p : date -> string) :
  nth_error fetchers j = Some g ->
  nth_error paths j = Some p ->
  s (BASE ++ p d) = s' (BASE ++ p d) ->
  snd g s d = snd g s' d.
Proof.
  intros Hg Hp H.
  each_fetcher j Hg Hp; unfold _get; rewrite H; reflexivity.
Qed.

Lemma fetcher_get_error (s : session) (d : date) (j : nat)
  (g : string * fetcher) (p : date -> string) (e : exn) :
  nth_error fetchers j = Some g ->
  nth_error paths j = Some p ->
  _get s (p d) = Raise e ->
  snd g s d = Raise e.
Proof.
  intros Hg Hp H.
  each_fetcher j Hg Hp; rewrite H; reflexivity.
Qed.

(** A fetcher raises what its request raises: the error of [session.get],
    [HTTPError] with the status when the status is 400 to 599 (whatever
    the body), and the decoding error when the body of another response is
    not JSON. *)
Theorem fetcher_request_error (s : session) (d : date) (j : nat)
  (g : string * fetcher) (p : date -> string) :
  nth_error fetchers j = Some g ->
  nth_error paths j = Some p ->
  (forall e, s (BASE ++ p d) = Raise e -> snd g s d = Raise e)
  /\ (forall status body,
        s (BASE ++ p d) = Ok (mkresponse status body) ->
        400 <= status < 600 ->
        snd g s d = Raise (HTTPError status))
  /\ (forall status,
        s (BASE ++ p d) = Ok (mkresponse status None) ->
        ~ 400 <= status < 600 ->
        snd g s d = Raise JSONDecodeError).
Proof.
  intros Hg Hp. split; [|split].
  - intros e H. apply (fetcher_get_error s d j g p e Hg Hp).
    unfold _get. rewrite H. reflexivity.
  - intros status body H Hst. apply (fetcher_get_error s d j g p _ Hg Hp).
    unfold _get, raise_for_status. rewrite H. cbn [bind status_code].
    replace (400 <=? status) with true by (symmetry; apply Z.leb_le; lia).
    replace (status <? 600) with true by (symmetry; apply Z.ltb_lt; lia).
    reflexivity.
  - intros status H Hst. apply (fetcher_get_error s d j g p _ Hg Hp).
    unfold _get, raise_for_status. rewrite H. cbn [bind status_code].
    destruct (400 <=? status) eqn:E1; [destruct (status <? 600) eqn:E2|]; cbn [andb];
      try reflexivity.
    exfalso. apply Hst. apply Z.leb_le in E1. apply Z.ltb_lt in E2. lia.
Qed.

(** ** The loop over the fetchers, whatever fails *)

Local Open Scope list_scope.

(** The warnings of the loop name the fetchers that raise, in order. *)
Lemma run_log (s : session) (d : date) (fns : list (string * fetcher))
  (acc : dict) (log : list string) :
  snd (fold_left (fetch_step s d) fns (acc, log)) = log ++ failed_names s d fns.
Proof.
  revert acc log. induction fns as [|g fns IH]; intros acc log.
  - cbn. rewrite app_nil_r. reflexivity.
  - cbn [fold_left].
    assert (Hstep : fetch_step s d (acc, log) g
                    = (match snd g s d with Ok r => update acc r | Raise _ => acc end,
                       match snd g s d with Ok _ => log | Raise _ => log ++ [fst g] end)).
    { unfold fetch_step. cbn [fst snd]. destruct (snd g s d); reflexivity. }
    assert (Hf : failed_names s d (g :: fns)
                 = (if raised (snd g s d) then [fst g] else []) ++ failed_names s d fns).
    { unfold failed_names. cbn [filter]. destruct (raised (snd g s d)); reflexivity. }
    rewrite Hstep, Hf, IH.
    destruct (snd g s d) as [r|e]; cbn [raised app]; [reflexivity|].
    rewrite <- app_assoc. reflexivity.
Qed.

Lemma NoDup_app_disjoint {A : Type} (l l' : list A) :
  NoDup (l ++ l') -> forall a, In a l -> ~ In a l'.
Proof.
  induction l as [|x l IH]; intros H a Ha; [contradiction|].
  cbn in H. inversion H as [|y m Hx Hm]; subst.
  destruct Ha as [->|Ha].
  - intros Hin. apply Hx. apply in_or_app. right. exact Hin.
  - exact (IH Hm a Ha).
Qed.

(** Emptying some of the lists keeps the keys distinct. *)
Lemma distinct_sub (cks ks : list (list string)) :
  Forall2 all_or_none cks ks ->
  NoDup (List.concat ks) ->
  NoDup (List.concat cks) /\ incl (List.concat cks) (List.concat ks).
Proof.
  induction 1 as [|ck k cks ks Hck Hrest IH]; intros Hnd.
  - split; [constructor | intros a Ha; exact Ha].
  - cbn [List.concat] in *.
    destruct (IH (NoDup_app_remove_l _ _ Hnd)) as [IHn IHi].
    destruct Hck as [->| ->].
    + split.
      * apply NoDup_app; [exact (NoDup_app_remove_r _ _ Hnd) | exact IHn |].
        intros a Ha Hin. exact (NoDup_app_disjoint _ _ Hnd a Ha (IHi a Hin)).
      * apply incl_app_app; [intros a Ha; exact Ha | exact IHi].
    + split; [exact IHn | apply incl_appr; exact IHi].
Qed.

Lemma keys_sub (s : session) (d : date) (fns : list (string * fetcher))
  (ks : list (list string)) :
  List.length fns = List.length ks ->
  (forall j g k r,
      nth_error fns j = Some g -> nth_error ks j = Some k ->
      snd g s d = Ok r -> keys r = k) ->
  Forall2 all_or_none (map (contributed_keys s d) fns) ks.
Proof.
  revert ks. induction fns as [|g fns IH]; intros ks Hlen Hkeys.
  - destruct ks; [constructor | discriminate Hlen].
  - destruct ks as [|k ks]; [discriminate Hlen|].
    cbn [map]. constructor.
    + unfold contributed_keys, contributed.
      destruct (snd g s d) as [r|e] eqn:E; cbn [contribution].
      * left. exact (Hkeys 0%nat g k r eq_refl eq_refl E).
      * right. reflexivity.
    + apply IH; [cbn in Hlen; lia|].
      intros j g' k' r Hg Hk. exact (Hkeys (S j) g' k' r Hg Hk).
Qed.

Lemma columns_distinct : NoDup SheetsWriter.FITBIT_COLUMNS.
Proof. apply nodupb_NoDup. vm_compute. reflexivity. Qed.

(** Whatever the fetchers do, the row is what the ones that return
    contribute, one after the other, and its keys are distinct columns. *)
Lemma run_any (s : session) (d : date) :
  fst (run_fetchers fetchers s d) = List.concat (map (contributed s d) fetchers)
  /\ NoDup (keys (fst (run_fetchers fetchers s d)))
  /\ incl (keys (fst (run_fetchers fetchers s d))) SheetsWriter.FITBIT_COLUMNS.
Proof.
  assert (Hsub : Forall2 all_or_none (map (contributed_keys s d) fetchers) produced_keys).
  { apply keys_sub; [reflexivity|]. intros j g k r. apply fetcher_keys. }
  destruct (distinct_sub _ _ Hsub columns_distinct) as [Hnd Hincl].
  pose proof (run_concat s d Hnd) as Hrow.
  assert (Hk : keys (fst (run_fetchers fetchers s d))
               = List.concat (map (contributed_keys s d) fetchers)).
  { rewrite Hrow, keys_concat, map_map. reflexivity. }
  rewrite Hk. auto.
Qed.

(** The warnings of [fetch_all]: one per fetcher that raises, with its
    name, in the order of the fetchers list. *)
Theorem warnings_name_failures (env : environment) (s : session) (d : date) :
  get_session env = Done s ->
  exists row,
    fetch_all_log env (Some d) = Done (row, failed_names s d fetchers)
    /\ fetch_all env (Some d) = Done row.
Proof.
  intros Hs. exists (fst (run_fetchers fetchers s d)).
  unfold fetch_all, fetch_all_log. rewrite Hs.
  assert (Hl : snd (run_fetchers fetchers s d) = failed_names s d fetchers).
  { unfold run_fetchers. rewrite run_log. reflexivity. }
  rewrite <- Hl. destruct (run_fetchers fetchers s d). split; reflexivity.
Qed.

(** A fetcher that returned has all its keys, with its values, in the
    row. *)
Lemma row_keeps (s : session) (d : date) (j : nat) (g : string * fetcher)
  (r : dict) (k : string) (v : value) :
  nth_error fetchers j = Some g ->
  snd g s d = Ok r ->
  lookup k r = Some v ->
  lookup k (fst (run_fetchers fetchers s d)) = Some v.
Proof.
  intros Hg Hr Hl. destruct (run_any s d) as [Hrow [Hnd _]].
  apply In_lookup; [exact Hnd|].
  rewrite Hrow. apply in_concat. exists r. split; [|exact (lookup_In _ _ _ Hl)].
  apply in_map_iff. exists g. unfold contributed. rewrite Hr.
  split; [reflexivity | exact (nth_error_In _ _ Hg)].
Qed.

(** A key of the row is a column, and a key of a fetcher that returned. *)
Lemma row_only (s : session) (d : date) (k : string) :
  lookup k (fst (run_fetchers fetchers s d)) <> None ->
  In k SheetsWriter.FITBIT_COLUMNS
  /\ exists j g r,
       nth_error fetchers j = Some g
       /\ snd g s d = Ok r
       /\ lookup k r <> None.
Proof.
  intros Hk. destruct (run_any s d) as [Hrow [_ Hincl]].
  assert (Hin : In k (keys (fst (run_fetchers fetchers s d)))).
  { apply mem_In. destruct (mem k (keys (fst (run_fetchers fetchers s d)))) eqn:E;
      [reflexivity|]. exfalso. apply Hk. apply lookup_None. exact E. }
  split; [exact (Hincl k Hin)|].
  rewrite Hrow, keys_concat in Hin. apply in_concat in Hin.
  destruct Hin as [ck [Hck Hkin]].
  apply in_map_iff in Hck. destruct Hck as [r [<- Hr]].
  apply in_map_iff in Hr. destruct Hr as [g [<- Hg]].
  apply In_nth_error in Hg. destruct Hg as [j Hj].
  unfold contributed in Hkin.
  destruct (snd g s d) as [r|e] eqn:E; cbn [contribution] in Hkin; [|contradiction].
  exists j, g, r. split; [exact Hj|]. split; [exact E|].
  intros Hnone. apply lookup_None in Hnone. apply mem_In in Hkin.
  rewrite Hkin in Hnone. discriminate Hnone.
Qed.

(** Any number of fetchers may raise: the row still binds every key of
    every fetcher that returned to the value that fetcher gave, and it
    holds no other key; each key is one of the 26 columns. *)
Theorem successes_survive_failures (env : environment) (s : session) (d : date) :
  get_session env = Done s ->
  exists row,
    fetch_all env (Some d) = Done row
    /\ (forall j g r k v,
          nth_error fetchers j = Some g ->
          snd g s d = Ok r ->
          lookup k r = Some v ->
          lookup k row = Some v)
    /\ (forall k,
          lookup k row <> None ->
          In k SheetsWriter.FITBIT_COLUMNS
          /\ exists j g r,
               nth_error fetchers j = Some g
               /\ snd g s d = Ok r
               /\ lookup k r <> None).
Proof.
  intros Hs. exists (fst (run_fetchers fetchers s d)). split; [|split].
  - unfold fetch_all, fetch_all_log. rewrite Hs. reflexivity.
  - intros j g r k v. apply row_keeps.
  - intros k. apply row_only.
Qed.

(** When all ten fetchers return, the keys of the row are the 26 columns
    of the Fitbit tab, in the order of the columns. *)
Theorem full_row_matches_columns (env : environment) (s : session) (d : date) :
  get_session env = Done s ->
  (forall j g, nth_error fetchers j = Some g -> exists r, snd g s d = Ok r) ->
  exists row,
    fetch_all env (Some d) = Done row
    /\ keys row = SheetsWriter.FITBIT_COLUMNS.
Proof.
  intros Hs Hall. destruct (run_any s d) as [Hrow _].
  exists (fst (run_fetchers fetchers s d)). split.
  - unfold fetch_all, fetch_all_log. rewrite Hs. reflexivity.
  - rewrite Hrow, keys_concat, map_map.
    change (map (fun x => keys (contributed s d x)) fetchers)
      with (map (contributed_keys s d) fetchers).
    rewrite (keys_all s d fetchers produced_keys eq_refl
               (fun j g k r => fetcher_keys s d j g k r) Hall).
    reflexivity.
Qed.

(** When every fetcher raises, the aggregate fetch still returns: the
    empty row, with the ten warnings. *)
Theorem outage_gives_empty_row (env : environment) (s : session) (d : date) :
  get_session env = Done s ->
  (forall j g, nth_error fetchers j = Some g -> exists e, snd g s d = Raise e) ->
  fetch_all_log env (Some d) = Done ([], map fst fetchers).
Proof.
  intros Hs Hall. destruct (run_any s d) as [Hrow _].
  unfold fetch_all_log. rewrite Hs.
  assert (H : forall fns : list (string * fetcher),
             (forall g, In g fns -> exists e, snd g s d = Raise e) ->
             List.concat (map (contributed s d) fns) = []
             /\ failed_names s d fns = map fst fns).
  { induction fns as [|g fns IH]; intros Hf; [split; reflexivity|].
    destruct (IH (fun g' Hg' => Hf g' (or_intror Hg'))) as [IH1 IH2].
    destruct (Hf g (or_introl eq_refl)) as [e He].
    unfold failed_names in *. cbn [map List.concat filter].
    unfold contributed at 1. rewrite He. cbn [contribution raised app map].
    rewrite IH1, IH2. split; reflexivity. }
  destruct (H fetchers) as [H1 H2].
  { intros g Hg. apply In_nth_error in Hg. destruct Hg as [j Hj]. exact (Hall j g Hj). }
  rewrite H1 in Hrow.
  assert (Hl : snd (run_fetchers fetchers s d) = map fst fetchers).
  { unfold run_fetchers. rewrite run_log, H2. reflexivity. }
  destruct (run_fetchers fetchers s d) as [row log]. cbn [fst snd] in *.
  subst. reflexivity.
Qed.

(** ** Single fetchers *)

Local Open Scope string_scope.

(** [get_spo2] reads the three numbers from the body itself, from the
    object under [value], or from the first element of the list under
    [value], with the same result. *)
Theorem spo2_shapes (s1 s2 s3 : session) (d : date) (val : dict) (rest : list value) :
  lookup "value" val = None ->
  _get s1 (spo2_path d) = Ok (VDict val) ->
  _get s2 (spo2_path d) = Ok (VDict [("value", VDict val)]) ->
  _get s3 (spo2_path d) = Ok (VDict [("value", VList (VDict val :: rest))]) ->
  let out := Ok [("spo2_avg", value_or (VStr "") val "avg");
                 ("spo2_min", value_or (VStr "") val "min");
                 ("spo2_max", value_or (VStr "") val "max")] in
  get_spo2 s1 d = out /\ get_spo2 s2 d = out /\ get_spo2 s3 d = out.
Proof.
  intros Hno H1 H2 H3 out. unfold get_spo2.
  rewrite H1, H2, H3. cbn [bind]. rewrite !get_dict, Hno.
  cbn [lookup String.eqb Ascii.eqb Bool.eqb bind is_list truthy index0].
  rewrite !get_dict. repeat split; reflexivity.
Qed.




(** The fetchers of AZM, resting heart rate, HRV, breathing rate, skin
    temperature and VO2 max read the first entry of their list only: the
    entries after it change nothing. *)
Theorem only_first_entry_read (f : fetcher) (p : date -> string) (key : string)
  (s s' : session) (d : date) (e0 : value) (rest : list value) (more : dict) :
  In (f, p, key) first_entry_fetchers ->
  _get s (p d) = Ok (VDict ((key, VList (e0 :: rest)) :: more)) ->
  _get s' (p d) = Ok (VDict ((key, VList [e0]) :: more)) ->
  f s d = f s' d.
Proof.
  intros Hin H H'. cbn in Hin.
  repeat (destruct Hin as [Hin|Hin];
          [injection Hin as <- <- <-;
           unfold get_azm, get_heart_rate, get_hrv, get_breathing_rate,
             get_skin_temp, get_vo2_max, vo2_of;
           rewrite H, H'; reflexivity|]).
  contradiction.
Qed.

Lemma stage_minutes_value (e levels sm : dict) (stage : string) :
  object_at "levels" e = Some levels ->
  object_at "summary" levels = Some sm ->
  object_or_absent sm stage = true ->
  stage_minutes (VDict sm) stage = Ok (stage_value e stage).
Proof.
  intros Hl Hs Ho. unfold stage_value, stage_minutes. rewrite Hl, Hs.
  unfold object_or_absent in Ho.
  destruct (object_at stage sm) as [o|] eqn:E; [|discriminate Ho].
  rewrite (get_object_at _ _ _ E). cbn [bind]. rewrite get_dict.
  unfold value_or.
  unfold object_at in E. destruct (lookup stage sm) as [v|].
  - destruct v; try discriminate E. injection E as <-. reflexivity.
  - injection E as <-. reflexivity.
Qed.

(** The other fields of the sleep row come from the selected entry:
    start, end and efficiency as they are ([""], [""] and 0 when absent),
    and for each stage [levels.summary.<stage>.minutes], 0 when absent. *)
Theorem sleep_row_fields (s : session) (d : date) (data : dict)
  (entries : list dict) (e : dict) (h : value) :
  _get s (sleep_path d) = Ok (VDict data) ->
  objects_at "sleep" data = Some entries ->
  selected_sleep entries = Some e ->
  e <> [] ->
  levels_ok e = true ->
  truediv (value_or (VInt 0) e "duration") 3600000 = Ok h ->
  exists row,
    get_sleep s d = Ok row
    /\ lookup "sleep_start" row = Some (value_or (VStr "") e "startTime")
    /\ lookup "sleep_end" row = Some (value_or (VStr "") e "endTime")
    /\ lookup "sleep_efficiency" row = Some (value_or (VInt 0) e "efficiency")
    /\ lookup "sleep_deep_min" row = Some (stage_value e "deep")
    /\ lookup "sleep_light_min" row = Some (stage_value e "light")
    /\ lookup "sleep_rem_min" row = Some (stage_value e "rem")
    /\ lookup "sleep_wake_min" row = Some (stage_value e "wake").
Proof.
  intros Hget Hsl He Hne Hlv Hdiv.
  unfold get_sleep. rewrite Hget. cbn [bind]. unfold sleep_of.
  rewrite (get_objects_at _ _ _ Hsl). cbn [bind].
  rewrite select_main_selected, He. cbn [bind].
  destruct e as [|kv e']; [exfalso; apply Hne; reflexivity|].
  cbn [truthy negb]. set (e := kv :: e') in *.
  pose proof Hlv as Hlv'. unfold levels_ok in Hlv'.
  destruct (object_at "levels" e) as [levels|] eqn:El; [|discriminate].
  destruct (object_at "summary" levels) as [sm|] eqn:Es; [|discriminate].
  cbn [forallb] in Hlv'.
  repeat (apply andb_prop in Hlv'; let H := fresh "Hst" in destruct Hlv' as [H Hlv']).
  unfold sleep_row.
  rewrite (get_object_at _ _ _ El). cbn [bind].
  rewrite (get_object_at _ _ _ Es). cbn [bind].
  rewrite !get_dict. cbn [bind].
  fold (value_or (VInt 0) e "duration"). rewrite Hdiv. cbn [bind].
  assert (Hr : exists r, round h 2 = Ok r).
  { unfold truediv, int_div in Hdiv.
    destruct (value_or (VInt 0) e "duration"); try discriminate Hdiv;
      try (destruct (int_truediv _ _); [|discriminate Hdiv]);
      injection Hdiv as <-; cbn; eauto. }
  destruct Hr as [r Hr]. rewrite Hr. cbn [bind].
  rewrite (stage_minutes_value e levels sm _ El Es Hst),
    (stage_minutes_value e levels sm _ El Es Hst0),
    (stage_minutes_value e levels sm _ El Es Hst1),
    (stage_minutes_value e levels sm _ El Es Hst2).
  cbn [bind]. eexists. split; [reflexivity|]. repeat split; reflexivity.
Qed.

End Facts.

(** ** Runs on the sample inputs *)

Import Exact Examples Samples.

Lemma fetcher_reads_own_endpoint_run :
  get_sleep (serve (sleep_path day) (VDict sleep_data)) day = get_sleep only_sleep day.
Proof.
  exact (fetcher_reads_own_endpoint (serve (sleep_path day) (VDict sleep_data))
           only_sleep day 2 ("get_sleep", get_sleep) sleep_path eq_refl eq_refl eq_refl).
Defined.

Lemma fetcher_request_error_run : get_sleep sleep_down day = Raise (HTTPError 500).
Proof.
  apply (proj1 (proj2 (fetcher_request_error sleep_down day 2 ("get_sleep", get_sleep)
                         sleep_path eq_refl eq_refl))
               500 None eq_refl).
  lia.
Defined.

Lemma warnings_name_failures_run :
  exists row,
    fetch_all_log (env_of sleep_down) (Some day) = Done (row, ["get_sleep"])
    /\ fetch_all (env_of sleep_down) (Some day) = Done row.
Proof.
  exact (warnings_name_failures (env_of sleep_down) sleep_down day eq_refl).
Defined.

Ltac every_fetcher j Hg :=
  do 10 (destruct j as [|j];
         [cbn in Hg; injection Hg as <-; eexists; reflexivity|]);
  destruct j; discriminate Hg.

Lemma successes_survive_failures_run :
  exists row,
    fetch_all (env_of only_sleep) (Some day) = Done row
    /\ lookup "sleep_efficiency" row = Some (VInt 93).
Proof.
  destruct (successes_survive_failures (env_of only_sleep) only_sleep day eq_refl)
    as [row [Hrow [Hkept _]]].
  exists row. split; [exact Hrow|].
  apply (Hkept 2%nat ("get_sleep", get_sleep)
           [("sleep_start", VStr "2024-01-14T23:05:00.000");
            ("sleep_end", VStr "2024-01-15T06:35:30.000");
            ("sleep_duration_hrs",
             VFloat (@float_round exact (div_q (inject_Z 27030000) 3600000) 2));
            ("sleep_efficiency", VInt 93);
            ("sleep_deep_min", VInt 70); ("sleep_light_min", VInt 0);
            ("sleep_rem_min", VInt 95); ("sleep_wake_min", VInt 0)]);
    reflexivity.
Defined.

Lemma full_row_matches_columns_run :
  exists row,
    fetch_all (env_of (serve "" (VDict []))) (Some day) = Done row
    /\ keys row = SheetsWriter.FITBIT_COLUMNS.
Proof.
  apply (full_row_matches_columns (env_of (serve "" (VDict []))) (serve "" (VDict [])) day).
  - reflexivity.
  - intros j g Hg. every_fetcher j Hg.
Defined.

Lemma outage_gives_empty_row_run :
  fetch_all_log (env_of all_down) (Some day)
  = Done ([], ["get_activity_summary"; "get_azm"; "get_sleep"; "get_heart_rate";
               "get_hrv"; "get_spo2"; "get_breathing_rate"; "get_skin_temp";
               "get_vo2_max"; "get_exercises"]).
Proof.
  apply (outage_gives_empty_row (env_of all_down) all_down day).
  - reflexivity.
  - intros j g Hg. every_fetcher j Hg.
Defined.

Lemma spo2_shapes_run :
  let out := Ok [("spo2_avg", @VFloat exact (193 # 2)); ("spo2_min", VInt 93);
                 ("spo2_max", VInt 99)] in
  get_spo2 (serve (spo2_path day) (VDict spo2_value)) day = out
  /\ get_spo2 (serve (spo2_path day) (VDict [("value", VDict spo2_value)])) day = out
  /\ get_spo2 (serve (spo2_path day)
                 (VDict [("value", VList [VDict spo2_value; VDict []])])) day = out.
Proof.
  exact (spo2_shapes
           (serve (spo2_path day) (VDict spo2_value))
           (serve (spo2_path day) (VDict [("value", VDict spo2_value)]))
           (serve (spo2_path day) (VDict [("value", VList [VDict spo2_value; VDict []])]))
           day spo2_value [VDict []] eq_refl eq_refl eq_refl eq_refl).
Defined.


Lemma only_first_entry_read_run :
  get_azm (serve (azm_path day)
             (VDict [("activities-active-zone-minutes", VList [azm_first; azm_second])])) day
  = get_azm (serve (azm_path day)
               (VDict [("activities-active-zone-minutes", VList [azm_first])])) day.
Proof.
  apply (only_first_entry_read get_azm azm_path "activities-active-zone-minutes"
           (serve (azm_path day)
              (VDict [("activities-active-zone-minutes", VList [azm_first; azm_second])]))
           (serve (azm_path day)
              (VDict [("activities-active-zone-minutes", VList [azm_first])]))
           day azm_first [azm_second] []).
  - left. reflexivity.
  - reflexivity.
  - reflexivity.
Defined.

Lemma sleep_row_fields_run :
  exists row,
    get_sleep (serve (sleep_path day) (VDict sleep_data)) day = Ok row
    /\ lookup "sleep_start" row = Some (VStr "2024-01-14T23:05:00.000")
    /\ lookup "sleep_end" row = Some (VStr "2024-01-15T06:35:30.000")
    /\ lookup "sleep_efficiency" row = Some (VInt 93)
    /\ lookup "sleep_deep_min" row = Some (VInt 70)
    /\ lookup "sleep_light_min" row = Some (VInt 0)
    /\ lookup "sleep_rem_min" row = Some (VInt 95)
    /\ lookup "sleep_wake_min" row = Some (VInt 0).
Proof.
  apply (sleep_row_fields (serve (sleep_path day) (VDict sleep_data)) day sleep_data
           [nap; night] night (@VFloat exact (div_q (inject_Z 27030000) 3600000)));
    try reflexivity.
  discriminate.
Defined.

End ClientMore.

(* ===================================================================== *)
(** * Further properties of the sheet writer *)
(* ===================================================================== *)

Module WriterMore.
Import Python SheetsWriter Props WriterFacts.
Local Open Scope list_scope.

Section Facts.
Context {F : PyFloat} {U : PyUnicode}.
Variable svc : services.

(** Whatever the spreadsheet API does, the loop over the rows takes them
    in order and stops at the first one refused. *)
Lemma append_rows_prefix (tab : string) (rows : list row) (w : world) :
  prefix_written tab rows w (append_rows svc tab rows w)
  /\ clock_reads (snd (append_rows svc tab rows w)) = clock_reads w.
Proof.
  revert w. induction rows as [|r rows IH]; intros w.
  - split; [|reflexivity]. exists 0%nat. cbn. rewrite !app_nil_r. auto.
  - cbn [append_rows]. unfold append_row.
    destruct (api_fault svc w tab r) as [e|].
    + split; [|reflexivity]. exists 0%nat. cbn [fst snd committed attempted firstn map].
      rewrite app_nil_r. repeat split.
      * cbn. lia.
      * right. split; [cbn; lia | reflexivity].
      * discriminate.
    + set (w1 := mkworld (clock_reads w) (attempted w ++ [(tab, r)])
                   (committed w ++ [(tab, r)])).
      destruct (IH w1) as [[n [Hn [Hc [Ha Hd]]]] Hclk].
      destruct (append_rows svc tab rows w1) as [o w'] eqn:E.
      cbn [fst snd] in *.
      assert (Hres : match o with
                     | Done _ => append_rows svc tab rows w1
                     | Failed e => (Failed e, w')
                     | Exited c => (Exited c, w')
                     end = (o, w')).
      { destruct o as [[]|e|c]; [exact E | reflexivity | reflexivity]. }
      split.
      * exists (S n). cbn [List.length firstn map].
        assert (Hfst : fst (match o with
                            | Done _ => append_rows svc tab rows w1
                            | Failed e => (Failed e, w')
                            | Exited c => (Exited c, w')
                            end) = o) by (rewrite Hres; reflexivity).
        assert (Hsnd : snd (match o with
                            | Done _ => append_rows svc tab rows w1
                            | Failed e => (Failed e, w')
                            | Exited c => (Exited c, w')
                            end) = w') by (rewrite Hres; reflexivity).
        rewrite E in Hfst, Hsnd. cbn [fst snd] in Hfst, Hsnd.
        destruct o as [[]|e|c]; cbn [fst snd];
          (split; [lia|]; split;
           [rewrite Hc; unfold w1; cbn [committed]; rewrite <- app_assoc; reflexivity|];
           split;
           [destruct Ha as [Ha|[Hlt Ha]];
            [left | right; split; [lia|]];
            rewrite Ha; unfold w1; cbn [attempted]; rewrite <- app_assoc; reflexivity
           | intros Hdone; try discriminate Hdone; rewrite (Hd Hdone); reflexivity]).
      * destruct o as [[]|e|c]; cbn [snd]; rewrite Hclk; reflexivity.
Qed.

Lemma prefix_written_untouched (tab : string) (rows : list row) (w : world)
  (o : outcome unit) :
  o <> Done tt -> prefix_written tab rows w (o, w).
Proof.
  intros Ho. exists 0%nat. cbn. rewrite !app_nil_r.
  repeat split; [lia | left; reflexivity | intros H; contradiction].
Qed.

(** Whatever the spreadsheet does, a call of one of the three writers
    leaves a prefix of its rows taken, in order and without gaps, has
    tried at most the one row after that prefix, reads the clock at most
    once, and returns normally only when every row was taken.  When the
    tab cannot be opened the call ends as the opening did and the state
    is the one before the call: nothing is tried, nothing is taken and
    the clock is not read. *)
Theorem writers_commit_a_prefix (w : world) :
  let ts := clock svc (clock_reads w) in
  (forall readings,
      prefix_written "Blood Pressure" (bp_rows ts 1 readings) w
        (append_bp svc readings w)
      /\ (clock_reads (snd (append_bp svc readings w)) <= S (clock_reads w))%nat
      /\ (open_tab svc "Blood Pressure" <> Done tt ->
          append_bp svc readings w = (open_tab svc "Blood Pressure", w)))
  /\ (forall meal items,
        prefix_written "Diet" (diet_rows ts meal items) w
          (append_diet svc meal items w)
        /\ (clock_reads (snd (append_diet svc meal items w)) <= S (clock_reads w))%nat
        /\ (open_tab svc "Diet" <> Done tt ->
            append_diet svc meal items w = (open_tab svc "Diet", w)))
  /\ (forall metrics,
        prefix_written "Fitbit" [VStr ts :: map (field metrics) FITBIT_COLUMNS] w
          (append_fitbit svc metrics w)
        /\ (clock_reads (snd (append_fitbit svc metrics w)) <= S (clock_reads w))%nat
        /\ (open_tab svc "Fitbit" <> Done tt ->
            append_fitbit svc metrics w = (open_tab svc "Fitbit", w))).
Proof.
  intros ts.
  assert (Hloop : forall tab rows,
             prefix_written tab rows w
               (with_tab svc tab (fun w0 => let (t, w1) := _timestamp svc w0 in
                                            append_rows svc tab rows w1) w)
             /\ (clock_reads
                   (snd (with_tab svc tab
                           (fun w0 => let (t, w1) := _timestamp svc w0 in
                                      append_rows svc tab rows w1) w))
                 <= S (clock_reads w))%nat
             /\ (open_tab svc tab <> Done tt ->
                 with_tab svc tab (fun w0 => let (t, w1) := _timestamp svc w0 in
                                             append_rows svc tab rows w1) w
                 = (open_tab svc tab, w))).
  { intros tab rows. unfold with_tab.
    destruct (open_tab svc tab) as [[]|e|c].
    - cbn [_timestamp].
      destruct (append_rows_prefix tab rows
                  (mkworld (S (clock_reads w)) (attempted w) (committed w)))
        as [Hp Hc].
      split; [exact Hp | split; [rewrite Hc; cbn; lia | intros H; contradiction]].
    - split; [apply prefix_written_untouched; discriminate
             | split; [cbn; lia | reflexivity]].
    - split; [apply prefix_written_untouched; discriminate
             | split; [cbn; lia | reflexivity]]. }
  split; [|split].
  - intros readings. exact (Hloop "Blood Pressure" (bp_rows ts 1 readings)).
  - intros meal items. exact (Hloop "Diet" (diet_rows ts meal items)).
  - intros metrics. subst ts.
    pose proof (Hloop "Fitbit" [VStr (clock svc (clock_reads w))
                                :: map (field metrics) FITBIT_COLUMNS]) as H.
    unfold append_fitbit. unfold with_tab in *.
    destruct (open_tab svc "Fitbit") as [[]|e|c]; [|exact H|exact H].
    cbn [_timestamp append_rows] in *.
    destruct (append_row svc "Fitbit"
                (VStr (clock svc (clock_reads w)) :: map (field metrics) FITBIT_COLUMNS)
                (mkworld (S (clock_reads w)) (attempted w) (committed w)))
      as [[[]|e|c] w'] eqn:E; exact H.
Qed.

Lemma diet_rows_length (ts meal : string) (items : list dict) :
  List.length (diet_rows ts meal items) = List.length items.
Proof. unfold diet_rows. apply length_map. Qed.

(** A diet write of N items that the spreadsheet takes reads the clock
    once and makes exactly N [append_row] calls, in the order of the
    items; each row carries that timestamp and the capitalized meal. *)
Theorem append_diet_one_row_each (meal : string) (items : list dict) (w : world) :
  open_tab svc "Diet" = Done tt ->
  appends_ok svc "Diet" (diet_rows (clock svc (clock_reads w)) meal items) (stamped w) ->
  exists w',
    append_diet svc meal items w = (Done tt, w')
    /\ clock_reads w' = S (clock_reads w)
    /\ List.length (attempted w') = (List.length (attempted w) + List.length items)%nat
    /\ committed w' = committed w ++ map (pair "Diet")
                                      (diet_rows (clock svc (clock_reads w)) meal items)
    /\ (forall n item,
          nth_error items n = Some item ->
          nth_error (attempted w') (List.length (attempted w) + n)
          = Some ("Diet",
                  [VStr (clock svc (clock_reads w)); VStr (capitalize meal);
                   field item "food_item"; field item "weight_grams";
                   field item "notes"])).
Proof.
  intros Hopen Hok.
  unfold append_diet, with_tab. rewrite Hopen. cbn [_timestamp].
  change (mkworld (S (clock_reads w)) (attempted w) (committed w)) with (stamped w).
  rewrite (append_rows_all _ _ _ _ Hok).
  eexists. split; [reflexivity|].
  unfold after_rows, stamped. cbn [clock_reads attempted committed].
  rewrite !length_app, !length_map, diet_rows_length.
  repeat split; try reflexivity.
  intros n item H. rewrite nth_error_app2 by lia.
  replace (List.length (attempted w) + n - List.length (attempted w))%nat with n by lia.
  rewrite nth_error_map. unfold diet_rows. rewrite nth_error_map, H. reflexivity.
Qed.

End Facts.

(** ** A run on sample input *)

Import Exact Examples Samples.

Lemma append_diet_one_row_each_run :
  exists w',
    append_diet sheet_up "lunch" three_items fresh = (Done tt, w')
    /\ clock_reads w' = 1%nat
    /\ List.length (attempted w') = 3%nat
    /\ committed w'
       = [("Diet", diet_row "Rice" 300); ("Diet", diet_row "Steak" 150);
          ("Diet", diet_row "Yam" 200)]
    /\ nth_error (attempted w') 2 = Some ("Diet", diet_row "Yam" 200).
Proof.
  destruct (append_diet_one_row_each sheet_up "lunch" three_items fresh)
    as [w' [H1 [H2 [H3 [H4 H5]]]]].
  - reflexivity.
  - intros before r rest _. reflexivity.
  - exists w'. split; [exact H1|]. split; [exact H2|]. split; [exact H3|].
    split; [exact H4|]. exact (H5 2%nat (food "Yam" 200) eq_refl).
Defined.

End WriterMore.

(* ===================================================================== *)
(** * Further properties of the command line *)
(* ===================================================================== *)

Module MainMore.
Import Python Main Props ClientFacts ClientMore MainFacts.

Section Facts.
Context {F : PyFloat} {U : PyUnicode}.
Variable svc : SheetsWriter.services.

(** ** [cmd_fitbit] *)

Lemma key_owner_unique (j : nat) (k : string) :
  (j < 10)%nat -> In k (nth j produced_keys []) -> key_owner k = j.
Proof.
  intros Hj Hin.
  do 10 (destruct j as [|j];
         [cbn in Hin;
          repeat (destruct Hin as [<-|Hin]; [reflexivity|]); contradiction|]).
  lia.
Qed.

Lemma In_keys_lookup (k : string) (d : dict) :
  In k (keys d) -> exists v, lookup k d = Some v.
Proof.
  induction d as [|[k' v'] d IH]; intros H; [contradiction|].
  cbn [lookup]. destruct (String.eqb_spec k k') as [->|Hne]; [eauto|].
  apply IH. destruct H as [H|H]; [cbn in H; congruence | exact H].
Qed.

Lemma lookup_keys (k : string) (v : value) (d : dict) :
  lookup k d = Some v -> In k (keys d).
Proof. intros H. apply lookup_In in H. apply (in_map fst) in H. exact H. Qed.

(** The row that [cmd_fitbit] appends has the timestamp and 26 cells, one
    per column: the cell of a column holds the value its fetcher gave when
    that fetcher returned, and the empty text when that fetcher raised.  A
    failure never shifts a value into another column. *)
Theorem fitbit_row_cells (env : FitbitClient.environment) (s : FitbitClient.session)
  (d : date) (w : SheetsWriter.world) :
  FitbitClient.get_session env = Done s ->
  SheetsWriter.open_tab svc "Fitbit" = Done tt ->
  exists cells,
    SheetsWriter.attempted (snd (cmd_fitbit svc env (Some d) w))
    = (SheetsWriter.attempted w
       ++ [("Fitbit",
            VStr (SheetsWriter.clock svc (SheetsWriter.clock_reads w)) :: cells)])%list
    /\ List.length cells = 26%nat
    /\ (forall j g i k,
          nth_error FitbitClient.fetchers j = Some g ->
          nth_error SheetsWriter.FITBIT_COLUMNS i = Some k ->
          In k (nth j produced_keys []) ->
          (forall r, snd g s d = Ok r ->
                     exists v, lookup k r = Some v /\ nth_error cells i = Some v)
          /\ (forall e, snd g s d = Raise e -> nth_error cells i = Some (VStr ""))).
Proof.
  intros Hs Hopen.
  set (row := fst (FitbitClient.run_fetchers FitbitClient.fetchers s d)).
  assert (Hrow : FitbitClient.fetch_all env (Some d) = Done row).
  { unfold FitbitClient.fetch_all, FitbitClient.fetch_all_log. rewrite Hs. reflexivity. }
  pose proof (fun j g r k v => row_keeps s d j g r k v) as Hkept.
  pose proof (row_only s d) as Honly.
  fold row in Hkept, Honly.
  exists (map (SheetsWriter.field row) SheetsWriter.FITBIT_COLUMNS).
  split; [|split].
  - unfold cmd_fitbit. rewrite Hrow.
    unfold SheetsWriter.append_fitbit, SheetsWriter.with_tab. rewrite Hopen.
    cbn [SheetsWriter._timestamp]. unfold SheetsWriter.append_row.
    destruct (SheetsWriter.api_fault svc _ _ _); reflexivity.
  - reflexivity.
  - intros j g i k Hg Hi Hin.
    assert (Hj : (j < 10)%nat).
    { change 10%nat with (List.length FitbitClient.fetchers).
      apply (proj1 (nth_error_Some FitbitClient.fetchers j)). rewrite Hg. discriminate. }
    assert (Hcell : nth_error (map (SheetsWriter.field row) SheetsWriter.FITBIT_COLUMNS) i
                    = Some (SheetsWriter.field row k)).
    { rewrite nth_error_map, Hi. reflexivity. }
    assert (Hpk : nth_error produced_keys j = Some (nth j produced_keys [])).
    { apply nth_error_nth'. cbn. exact Hj. }
    split.
    + intros r Hr.
      pose proof (fetcher_keys s d j g _ r Hg Hpk Hr) as Hk.
      rewrite <- Hk in Hin. destruct (In_keys_lookup k r Hin) as [v Hv].
      exists v. split; [exact Hv|]. rewrite Hcell. unfold SheetsWriter.field.
      rewrite (Hkept j g r k v Hg Hr Hv). reflexivity.
    + intros e He. rewrite Hcell. unfold SheetsWriter.field.
      destruct (lookup k row) as [v|] eqn:El; [|reflexivity].
      exfalso.
      destruct (Honly k) as [_ [j' [g' [r' [Hg' [Hr' Hl']]]]]]; [rewrite El; discriminate|].
      assert (Hj' : (j' < 10)%nat).
      { change 10%nat with (List.length FitbitClient.fetchers).
        apply (proj1 (nth_error_Some FitbitClient.fetchers j')). rewrite Hg'. discriminate. }
      assert (Hpk' : nth_error produced_keys j' = Some (nth j' produced_keys [])).
      { apply nth_error_nth'. cbn. exact Hj'. }
      pose proof (fetcher_keys s d j' g' _ r' Hg' Hpk' Hr') as Hk'.
      assert (Hin' : In k (nth j' produced_keys [])).
      { rewrite <- Hk'. destruct (lookup k r') as [v'|] eqn:E'; [|contradiction].
        exact (lookup_keys _ _ _ E'). }
      assert (Heq : j = j').
      { rewrite <- (key_owner_unique j k Hj Hin). exact (key_owner_unique j' k Hj' Hin'). }
      subst j'. rewrite Hg in Hg'. injection Hg' as <-.
      rewrite He in Hr'. discriminate Hr'.
Qed.

(** ** [cmd_bp] *)




Lemma split_app (sep : ascii) (a rest : string) :
  has_char sep a = false ->
  split sep (a ++ String sep rest) = a :: split sep rest.
Proof.
  unfold has_char. induction a as [|c a IH]; intros H.
  - cbn. rewrite Ascii.eqb_refl. reflexivity.
  - cbn in H. apply orb_false_elim in H. destruct H as [Hc Ha].
    cbn [append split]. rewrite Ascii.eqb_sym, Hc, (IH Ha). reflexivity.
Qed.

Lemma split_not_nil (sep : ascii) (s : string) : split sep s <> [].
Proof.
  induction s as [|c s IH]; cbn; [discriminate|].
  destruct (Ascii.eqb c sep); [discriminate|].
  destruct (split sep s); discriminate.
Qed.

(** In a reading, whatever follows a third slash is ignored. *)
Theorem parts_after_third_ignored (a b c junk : string) :
  has_char "/" a = false ->
  has_char "/" b = false ->
  has_char "/" c = false ->
  parse_reading (a ++ "/" ++ b ++ "/" ++ c ++ "/" ++ junk)
  = parse_reading (a ++ "/" ++ b ++ "/" ++ c).
Proof.
  intros Ha Hb Hc. unfold parse_reading.
  change (a ++ "/" ++ b ++ "/" ++ c ++ "/" ++ junk)
    with (a ++ String "/" (b ++ String "/" (c ++ String "/" junk))).
  change (a ++ "/" ++ b ++ "/" ++ c) with (a ++ String "/" (b ++ String "/" c)).
  rewrite !(split_app _ _ _ Ha), !(split_app _ _ _ Hb), (split_app _ _ _ Hc),
    (split_without _ _ Hc).
  destruct (split "/" junk) as [|x xs] eqn:E; [exfalso; exact (split_not_nil _ _ E)|].
  reflexivity.
Qed.

(** ** [cmd_diet] *)

Lemma int_raises_ValueError (s : string) (e : exn) : int s = Raise e -> e = ValueError.
Proof.
  unfold int. destruct (isascii s);
    [|destruct (int_unicode s); intros H;
      [discriminate H | injection H as <-; reflexivity]].
  unfold int_ascii.
  match goal with |- context [match ?p with Some _ => _ | None => _ end] => destruct p end.
  - destruct (Nat.ltb _ _); intros H; [injection H as <-; reflexivity | discriminate H].
  - intros H. injection H as <-. reflexivity.
Qed.






End Facts.

(** ** Runs on the sample inputs *)

Import Exact Examples Samples.
Import FitbitClient.

Lemma fitbit_row_cells_run :
  exists cells,
    SheetsWriter.attempted (snd (cmd_fitbit sheet_up (env_of only_sleep) (Some day) fresh))
    = [("Fitbit", VStr "2024-01-15 08:00:00" :: cells)]
    /\ List.length cells = 26%nat
    /\ nth_error cells 0 = Some (VStr "")
    /\ nth_error cells 12 = Some (VInt 93).
Proof.
  destruct (fitbit_row_cells sheet_up (env_of only_sleep) only_sleep day fresh
              eq_refl eq_refl) as [cells [Ha [Hl Hc]]].
  exists cells. split; [exact Ha|]. split; [exact Hl|]. split.
  - apply (proj2 (Hc 0%nat ("get_activity_summary", FitbitClient.get_activity_summary)
                    0%nat "steps" eq_refl eq_refl (or_introl eq_refl))
                 (RequestException "unreachable")).
    reflexivity.
  - destruct (proj1 (Hc 2%nat ("get_sleep", FitbitClient.get_sleep) 12%nat
                       "sleep_efficiency" eq_refl eq_refl
                       (or_intror (or_intror (or_intror (or_introl eq_refl)))))
                    [("sleep_start", VStr "2024-01-14T23:05:00.000");
                     ("sleep_end", VStr "2024-01-15T06:35:30.000");
                     ("sleep_duration_hrs",
                      VFloat (@float_round exact (div_q (inject_Z 27030000) 3600000) 2));
                     ("sleep_efficiency", VInt 93);
                     ("sleep_deep_min", VInt 70); ("sleep_light_min", VInt 0);
                     ("sleep_rem_min", VInt 95); ("sleep_wake_min", VInt 0)]
                    eq_refl) as [v [Hv Hn]].
    cbn in Hv. injection Hv as <-. exact Hn.
Defined.

Lemma parts_after_third_ignored_run :
  parse_reading "120/80/65/after lunch" = parse_reading "120/80/65".
Proof.
  exact (parts_after_third_ignored "120" "80" "65" "after lunch" eq_refl eq_refl eq_refl).
Defined.



End MainMore.

(* ===================================================================== *)
(** * Further properties of the HTTP trigger *)
(* ===================================================================== *)

Module ServerMore.
Import Python Server Props.

Section Facts.
Context {F : PyFloat}.
Variable fetch_all : date -> outcome dict.
Variable append_fitbit : dict -> outcome unit.
Variable API_KEY : string.
Variable fromisoformat : string -> result date.
Variable today : date.
Variable format_exc : exn -> string.

Local Abbreviation handle :=
  (do_GET fetch_all append_fitbit API_KEY fromisoformat today format_exc).

Lemma authorized_runs_pipeline (r : request) (t : trace) (d : date) :
  authorized API_KEY r ->
  target_date fromisoformat today r d ->
  handle r t = run_pipeline fetch_all append_fitbit format_exc d t.
Proof.
  intros [Hp [Hk [Hne Ha]]] Hd. unfold do_GET.
  rewrite Hp, String.eqb_refl, Hk. cbn [negb].
  apply String.eqb_neq in Hne. rewrite Hne.
  unfold compare_digest. rewrite Ha, String.eqb_refl. cbn [andb bind negb].
  destruct Hd as [[-> ->] | [rd [-> [Hrd ->]]]]; [reflexivity|].
  apply String.eqb_neq in Hrd. rewrite Hrd. reflexivity.
Qed.

(** The statuses other than 200: 404 for any path other than [/fetch],
    whatever the key; 400 for a date that does not parse; 500 when the
    fetch raises, without a write; 500 when the write raises, after the
    fetch.  In the first two cases no collaborator is called. *)
Theorem error_statuses (r : request) (t : trace) :
  (req_path r <> "/fetch" ->
   handle r t
   = (Done tt,
      mktrace (responses t ++ [(404, "Not found. Use /fetch?key=YOUR_API_KEY")])%list
        (fetch_calls t) (write_calls t)))
  /\ (forall rd,
        authorized API_KEY r ->
        first_value "date" r = Some rd ->
        rd <> "" ->
        fromisoformat rd = Raise ValueError ->
        handle r t
        = (Done tt,
           mktrace (responses t
                    ++ [(400, "Bad date format: " ++ rd ++ ". Use YYYY-MM-DD.")%string])%list
             (fetch_calls t) (write_calls t)))
  /\ (forall d e,
        authorized API_KEY r ->
        target_date fromisoformat today r d ->
        fetch_all d = Failed e ->
        handle r t
        = (Done tt,
           mktrace (responses t ++ [(500, "Error:" ++ newline ++ format_exc e)%string])%list
             (S (fetch_calls t)) (write_calls t)))
  /\ (forall d m e,
        authorized API_KEY r ->
        target_date fromisoformat today r d ->
        fetch_all d = Done m ->
        append_fitbit m = Failed e ->
        handle r t
        = (Done tt,
           mktrace (responses t ++ [(500, "Error:" ++ newline ++ format_exc e)%string])%list
             (S (fetch_calls t)) (S (write_calls t)))).
Proof.
  split; [|split; [|split]].
  - intros Hp. unfold do_GET. apply String.eqb_neq in Hp. rewrite Hp. reflexivity.
  - intros rd [Hp [Hk [Hne Ha]]] Hd Hrd Hbad. unfold do_GET.
    rewrite Hp, String.eqb_refl, Hk. cbn [negb].
    apply String.eqb_neq in Hne. rewrite Hne.
    unfold compare_digest. rewrite Ha, String.eqb_refl. cbn [andb bind negb].
    rewrite Hd. apply String.eqb_neq in Hrd. rewrite Hrd, Hbad. reflexivity.
  - intros d e Hauth Hd Hf. rewrite (authorized_runs_pipeline r t d Hauth Hd).
    unfold run_pipeline, pipeline, call_fetch_all. rewrite Hf. reflexivity.
  - intros d m e Hauth Hd Hf Hw. rewrite (authorized_runs_pipeline r t d Hauth Hd).
    unfold run_pipeline, pipeline, call_fetch_all, call_append_fitbit.
    rewrite Hf, Hw. reflexivity.
Qed.

(** Case analysis on what the handler branches on, innermost first. *)
Ltac split_handler :=
  repeat match goal with
         | |- context [match ?x with _ => _ end] =>
             lazymatch x with
             | context [match _ with _ => _ end] => fail
             | _ => destruct x eqn:?
             end
         end.

(** For every request the handler calls the fetch at most once and the
    write at most once, the write only after the fetch returned a row; it
    sends exactly one response when it returns, and none when an
    exception or [SystemExit] leaves it. *)
Theorem handler_call_discipline (r : request) (t : trace) :
  (fetch_calls (snd (handle r t)) = fetch_calls t
   \/ fetch_calls (snd (handle r t)) = S (fetch_calls t))
  /\ (write_calls (snd (handle r t)) = write_calls t
      \/ (write_calls (snd (handle r t)) = S (write_calls t)
          /\ fetch_calls (snd (handle r t)) = S (fetch_calls t)
          /\ exists d m, fetch_all d = Done m))
  /\ (fst (handle r t) = Done tt ->
      exists code body,
        responses (snd (handle r t)) = (responses t ++ [(code, body)])%list)
  /\ (fst (handle r t) <> Done tt -> responses (snd (handle r t)) = responses t).
Proof.
  unfold do_GET, run_pipeline, pipeline, call_fetch_all, call_append_fitbit, bind.
  split_handler; cbn [fst snd fetch_calls write_calls responses _respond];
    (split; [first [left; reflexivity | right; reflexivity]|];
     split; [first [left; reflexivity | right; repeat split; eauto]|];
     split;
     [ intros H; first [discriminate H | eexists; eexists; reflexivity]
     | intros H; first [reflexivity | exfalso; apply H; reflexivity] ]).
Qed.





(** When the fetch leaves through [SystemExit], so does the handler: no
    response is sent and the write is not called. *)
Lemma exit_leaves_handler (r : request) (t : trace) (d : date) (c : Z) :
  authorized API_KEY r ->
  target_date fromisoformat today r d ->
  fetch_all d = Exited c ->
  handle r t = (Exited c, mktrace (responses t) (S (fetch_calls t)) (write_calls t)).
Proof.
  intros Hauth Hd Hf. rewrite (authorized_runs_pipeline r t d Hauth Hd).
  unfold run_pipeline, pipeline, call_fetch_all. rewrite Hf. reflexivity.
Qed.

End Facts.

(** With no stored token (or a required setting missing) an authorized
    request ends the server process with status 1: [get_session] raises
    [SystemExit], which [except Exception] does not catch; no response is
    sent and nothing is written. *)
Theorem missing_token_stops_server {F : PyFloat} (env : FitbitClient.environment)
  (append_fitbit : dict -> outcome unit) (API_KEY : string)
  (fromisoformat : string -> result date) (format_exc : exn -> string)
  (r : request) (t : trace) (d : date) :
  authorized API_KEY r ->
  target_date fromisoformat (FitbitClient.today env) r d ->
  FitbitClient.config_set env = false \/ FitbitClient.token_file env = Ok false ->
  do_GET (fun d => FitbitClient.fetch_all env (Some d)) append_fitbit API_KEY
    fromisoformat (FitbitClient.today env) format_exc r t
  = (Exited 1, mktrace (responses t) (S (fetch_calls t)) (write_calls t)).
Proof.
  intros Hauth Hd Hno.
  apply (exit_leaves_handler _ append_fitbit API_KEY fromisoformat
           (FitbitClient.today env) format_exc r t d 1 Hauth Hd).
  unfold FitbitClient.fetch_all, FitbitClient.fetch_all_log, FitbitClient.get_session.
  destruct Hno as [-> | Htok]; [reflexivity|].
  rewrite Htok. destruct (FitbitClient.config_set env); reflexivity.
Qed.


(** ** Runs on the sample inputs *)

Import Exact Examples Samples.

Lemma secret_authorized (r : request) :
  req_path r = "/fetch" ->
  first_value "key" r = Some "secret" ->
  authorized "secret" r.
Proof. intros Hp Hk. repeat split; [exact Hp | exact Hk | discriminate]. Qed.

Lemma error_statuses_run :
  do_GET fetch_defaults write_ok "secret" parse_day day trace_text other_path_request no_calls
  = (Done tt, mktrace [(404, "Not found. Use /fetch?key=YOUR_API_KEY")] 0 0)
  /\ do_GET fetch_defaults write_ok "secret" parse_day day trace_text bad_date_request
       no_calls
     = (Done tt, mktrace [(400, "Bad date format: 15/01/2024. Use YYYY-MM-DD.")] 0 0)
  /\ do_GET fetch_fails write_ok "secret" parse_day day trace_text good_request no_calls
     = (Done tt,
        mktrace [(500, "Error:" ++ newline ++ "Traceback (most recent call last): ...")]
          1 0)
  /\ do_GET fetch_defaults write_fails "secret" parse_day day trace_text undated_request
       no_calls
     = (Done tt,
        mktrace [(500, "Error:" ++ newline ++ "Traceback (most recent call last): ...")]
          1 1).
Proof.
  split; [|split; [|split]].
  - apply (proj1 (error_statuses fetch_defaults write_ok "secret" parse_day day trace_text
                    other_path_request no_calls)).
    discriminate.
  - apply (proj1 (proj2 (error_statuses fetch_defaults write_ok "secret" parse_day day
                           trace_text bad_date_request no_calls))
                 "15/01/2024").
    + apply secret_authorized; reflexivity.
    + reflexivity.
    + discriminate.
    + reflexivity.
  - apply (proj1 (proj2 (proj2 (error_statuses fetch_fails write_ok "secret" parse_day day
                                  trace_text good_request no_calls)))
                 day (RequestException "offline")).
    + apply secret_authorized; reflexivity.
    + right. exists "2024-01-15". repeat split. discriminate.
    + reflexivity.
  - apply (proj2 (proj2 (proj2 (error_statuses fetch_defaults write_fails "secret" parse_day
                                  day trace_text undated_request no_calls)))
                 day default_row (APIError "quota")).
    + apply secret_authorized; reflexivity.
    + left. split; reflexivity.
    + reflexivity.
    + reflexivity.
Defined.


Lemma missing_token_stops_server_run :
  do_GET (fun d => FitbitClient.fetch_all env_without_token (Some d)) write_ok "secret"
    parse_day day trace_text good_request no_calls
  = (Exited 1, mktrace [] 1 0).
Proof.
  apply (missing_token_stops_server env_without_token write_ok "secret" parse_day
           trace_text good_request no_calls day).
  - apply secret_authorized; reflexivity.
  - right. exists "2024-01-15". repeat split. discriminate.
  - right. reflexivity.
Defined.

End ServerMore.

(* ===================================================================== *)
(** * Properties of the configuration loader *)
(* ===================================================================== *)

Module ConfigFacts.
Import Python Config Props.

Section Facts.
Context {U : PyUnicode}.
Variable default_service_account_file : string.
Variable default_token_file : string.

Local Abbreviation load := (_ensure_loaded default_service_account_file default_token_file).

Lemma require_set (env : environ) (name : string) :
  variable_set env name = true ->
  exists v, getenv name env = Some v /\ _require name env = Done v.
Proof.
  unfold variable_set, _require. destruct (getenv name env) as [v|]; [|discriminate].
  intros H. apply negb_true_iff in H. rewrite H. eauto.
Qed.

Lemma require_unset (env : environ) (name : string) :
  variable_set env name = false -> _require name env = Exited 1.
Proof.
  unfold variable_set, _require. destruct (getenv name env) as [v|]; [|reflexivity].
  intros H. apply negb_false_iff in H. rewrite H. reflexivity.
Qed.

Ltac missing Hc :=
  cbn; split;
  [ split; [discriminate | intros [H _]; discriminate H]
  | split;
    [ discriminate
    | intros _; split;
      [exact Hc | split; [intros _; reflexivity | intros H; discriminate H]] ] ].

(** The first load succeeds exactly when the four required variables are
    set to non-empty text and the port text is an integer.  It then marks
    the configuration loaded and holds the values of the environment, with
    the defaults for the optional ones.  When it does not succeed the
    configuration stays unloaded: the process exits with status 1 when a
    required variable is missing or empty, and [ValueError] is raised
    when they are all set and the port text is no integer. *)
Theorem load_succeeds_iff (env : environ) (c : settings) :
  _loaded c = false ->
  (fst (load env c) = Done tt
   <-> forallb (variable_set env) required_variables = true
       /\ exists port, Main.int (getenv_default "SERVER_PORT" "8585" env) = Ok port)
  /\ (fst (load env c) = Done tt ->
      _loaded (snd (load env c)) = true
      /\ getenv "FITBIT_CLIENT_ID" env = Some (FITBIT_CLIENT_ID (snd (load env c)))
      /\ getenv "FITBIT_CLIENT_SECRET" env = Some (FITBIT_CLIENT_SECRET (snd (load env c)))
      /\ getenv "GOOGLE_SHEET_ID" env = Some (GOOGLE_SHEET_ID (snd (load env c)))
      /\ getenv "API_KEY" env = Some (API_KEY (snd (load env c)))
      /\ GOOGLE_SERVICE_ACCOUNT_FILE (snd (load env c))
         = getenv_default "GOOGLE_SERVICE_ACCOUNT_FILE" default_service_account_file env
      /\ FITBIT_TOKEN_FILE (snd (load env c))
         = getenv_default "FITBIT_TOKEN_FILE" default_token_file env
      /\ Main.int (getenv_default "SERVER_PORT" "8585" env)
         = Ok (SERVER_PORT (snd (load env c))))
  /\ (fst (load env c) <> Done tt ->
      _loaded (snd (load env c)) = false
      /\ (forallb (variable_set env) required_variables = false ->
          fst (load env c) = Exited 1)
      /\ (forallb (variable_set env) required_variables = true ->
          fst (load env c) = Failed ValueError)).
Proof.
  intros Hc. unfold _ensure_loaded. rewrite Hc. cbn [forallb required_variables].
  destruct (variable_set env "FITBIT_CLIENT_ID") eqn:E1;
    [|rewrite (require_unset _ _ E1); missing Hc].
  destruct (require_set _ _ E1) as [v1 [G1 R1]]. rewrite R1.
  destruct (variable_set env "FITBIT_CLIENT_SECRET") eqn:E2;
    [|rewrite (require_unset _ _ E2); missing Hc].
  destruct (require_set _ _ E2) as [v2 [G2 R2]]. rewrite R2.
  destruct (variable_set env "GOOGLE_SHEET_ID") eqn:E3;
    [|rewrite (require_unset _ _ E3); missing Hc].
  destruct (require_set _ _ E3) as [v3 [G3 R3]]. rewrite R3.
  destruct (variable_set env "API_KEY") eqn:E4;
    [|rewrite (require_unset _ _ E4); missing Hc].
  destruct (require_set _ _ E4) as [v4 [G4 R4]]. rewrite R4.
  destruct (Main.int (getenv_default "SERVER_PORT" "8585" env)) as [port|e] eqn:Ep.
  - cbn. split; [|split].
    + split; [intros _; split; [reflexivity | eauto] | intros _; reflexivity].
    + intros _. rewrite G1, G2, G3, G4. repeat split.
    + intros H. exfalso. apply H. reflexivity.
  - pose proof (MainMore.int_raises_ValueError _ _ Ep) as ->.
    cbn. split; [|split].
    + split; [discriminate | intros [_ [port H]]; discriminate H].
    + discriminate.
    + intros _. split; [exact Hc | split; [intros H; discriminate H | reflexivity]].
Qed.

Lemma load_marks_loaded (env : environ) (c : settings) :
  fst (load env c) = Done tt -> _loaded (snd (load env c)) = true.
Proof.
  unfold _ensure_loaded. destruct (_loaded c) eqn:Hc; [intros _; exact Hc|].
  destruct (_require "FITBIT_CLIENT_ID" env); try discriminate.
  destruct (_require "FITBIT_CLIENT_SECRET" env); try discriminate.
  destruct (_require "GOOGLE_SHEET_ID" env); try discriminate.
  destruct (_require "API_KEY" env); try discriminate.
  destruct (Main.int (getenv_default "SERVER_PORT" "8585" env)); try discriminate.
  intros _. reflexivity.
Qed.

(** Loading happens once: after a successful load, another call returns at
    once and changes nothing, whatever the environment has become. *)
Theorem load_once (env env' : environ) (c : settings) :
  fst (load env c) = Done tt ->
  load env' (snd (load env c)) = (Done tt, snd (load env c)).
Proof.
  intros H. pose proof (load_marks_loaded env c H) as Hl.
  unfold _ensure_loaded at 1. rewrite Hl. reflexivity.
Qed.

End Facts.

(** ** Runs on the sample inputs *)

Import Exact Samples.

Lemma load_succeeds_iff_run :
  fst (_ensure_loaded "/app/service_account.json" "/app/tokens.json" full_environ unloaded)
  = Done tt
  /\ fst (_ensure_loaded "/app/service_account.json" "/app/tokens.json" no_key_environ
            unloaded)
     = Exited 1.
Proof.
  split.
  - apply (proj2 (proj1 (load_succeeds_iff "/app/service_account.json" "/app/tokens.json"
                           full_environ unloaded eq_refl))).
    split; [reflexivity | exists 9000; reflexivity].
  - apply (proj2 (proj2 (load_succeeds_iff "/app/service_account.json" "/app/tokens.json"
                           no_key_environ unloaded eq_refl))).
    + discriminate.
    + reflexivity.
Defined.

Lemma load_once_run :
  _ensure_loaded "/app/service_account.json" "/app/tokens.json" no_key_environ
    (snd (_ensure_loaded "/app/service_account.json" "/app/tokens.json" full_environ
            unloaded))
  = (Done tt,
     snd (_ensure_loaded "/app/service_account.json" "/app/tokens.json" full_environ
            unloaded)).
Proof.
  apply (load_once "/app/service_account.json" "/app/tokens.json" full_environ
           no_key_environ unloaded).
  reflexivity.
Defined.

End ConfigFacts.

(* ===================================================================== *)
(** * Properties of the OAuth callback *)
(* ===================================================================== *)

Module AuthFacts.
Import Python FitbitAuth Props.

(** How waiting for the callback ends.  It returns the code [c] exactly
    when a request arrived whose query has [c] as first [code] value
    (an [error] parameter beside it is ignored); it times out when no
    request arrived; a request without [code] fails with the [error]
    parameter, or with [unknown] when there is none.  The result never
    depends on the class attributes left by an earlier attempt. *)
Theorem callback_outcome (incoming : option query) (st : handler_state) :
  (forall c,
      c <> "" ->
      (fst (_wait_for_callback incoming st) = Returned c
       <-> exists q rest, incoming = Some q /\ Server.find_param "code" q = Some (c, rest)))
  /\ (incoming = None ->
      fst (_wait_for_callback incoming st)
      = RuntimeError "No authorization code received (timed out).")
  /\ (forall q,
        incoming = Some q ->
        Server.find_param "code" q = None ->
        (Server.find_param "error" q = None ->
         fst (_wait_for_callback incoming st) = RuntimeError "OAuth error: unknown")
        /\ (forall e rest,
              Server.find_param "error" q = Some (e, rest) ->
              e <> "" ->
              fst (_wait_for_callback incoming st) = RuntimeError ("OAuth error: " ++ e)))
  /\ (forall st', fst (_wait_for_callback incoming st')
                  = fst (_wait_for_callback incoming st)).
Proof.
  split; [|split; [|split]].
  - intros c Hc. unfold _wait_for_callback, callback_do_GET.
    destruct incoming as [q|].
    + destruct (Server.find_param "code" q) as [[c' rest]|] eqn:Eq.
      * cbn [snd error auth_code is_set].
        destruct (String.eqb c' "") eqn:Ec; cbn [negb fst].
        -- split; [discriminate|]. intros [q' [rest' [Hq Hf]]].
           injection Hq as <-. rewrite Eq in Hf. injection Hf as -> _.
           apply String.eqb_eq in Ec. contradiction.
        -- split.
           ++ intros H. injection H as <-. eauto.
           ++ intros [q' [rest' [Hq Hf]]]. injection Hq as <-.
              rewrite Eq in Hf. injection Hf as -> _. reflexivity.
      * cbn [snd error auth_code is_set].
        split.
        -- destruct (Server.find_param "error" q) as [[e r]|];
             destruct (negb (String.eqb _ "")); cbn; discriminate.
        -- intros [q' [rest' [Hq Hf]]]. injection Hq as <-. rewrite Eq in Hf.
           discriminate Hf.
    + cbn. split; [discriminate|]. intros [q [rest [Hq _]]]. discriminate Hq.
  - intros ->. reflexivity.
  - intros q -> Hcode. unfold _wait_for_callback, callback_do_GET. rewrite Hcode.
    split.
    + intros ->. reflexivity.
    + intros e rest -> He. cbn [snd error is_set].
      apply String.eqb_neq in He. rewrite He. reflexivity.
  - intros st'. reflexivity.
Qed.

(** ** Runs on the sample inputs *)

Import Samples.

Lemma callback_outcome_run :
  fst (_wait_for_callback (Some code_query) stale) = Returned "4f8a"
  /\ fst (_wait_for_callback None stale)
     = RuntimeError "No authorization code received (timed out)."
  /\ fst (_wait_for_callback (Some denied_query) stale)
     = RuntimeError "OAuth error: access_denied"
  /\ fst (_wait_for_callback (Some icon_query) stale) = RuntimeError "OAuth error: unknown".
Proof.
  split; [|split; [|split]].
  - apply (proj2 (proj1 (callback_outcome (Some code_query) stale) "4f8a"
                    ltac:(discriminate))).
    exists code_query, []. split; reflexivity.
  - apply (proj1 (proj2 (callback_outcome None stale))). reflexivity.
  - apply (proj2 (proj1 (proj2 (proj2 (callback_outcome (Some denied_query) stale)))
                    denied_query eq_refl eq_refl)
                 "access_denied" []).
    + reflexivity.
    + discriminate.
  - apply (proj1 (proj1 (proj2 (proj2 (callback_outcome (Some icon_query) stale)))
                    icon_query eq_refl eq_refl)).
    reflexivity.
Defined.

End AuthFacts.
